(** * OAuth account linking, session tokens and the PKCE cache of the auth service

    A shallow embedding of the auth backend of the chatbot application:
    - [backend/auth/src/models/User.ts]      the [User] model over the [users] table,
    - [backend/auth/src/config/oauth.ts]     the three Passport verify callbacks,
    - [backend/auth/src/routes/oauth.ts]     the PKCE store and the link / unlink routes,
    - [backend/auth/src/routes/auth.ts]      register, login, refresh and profile
                                             (src/unnamed/part_004),
    - [backend/auth/src/middleware/auth.ts]  [authenticateToken]
                                             (src/unnamed/part_007),
    - [backend/auth/dist/middleware/errorHandler.js],
    and of the conversation store of the chat service:
    - [backend/chat/src/services/ConversationManager.ts],
    - [backend/chat/src/routes/chat.ts]      the conversation routes
                                             (src/unnamed/part_000).

    The [users] table is a list of rows in table order.  Its constraints
    are those of [infrastructure/database/init] (src/unnamed/part_001) and
    of the migrations 002 and 003: [id] is the primary key, [email] is
    UNIQUE NOT NULL, [password_hash] and [name] are NOT NULL; the index on
    (oauth_provider, oauth_id) of migration 002 is a plain index, not a
    unique one.  An INSERT that breaks a constraint is refused and raises.
    A query hands back its rows as objects keyed by column name
    ([password_hash], [oauth_provider], ...), and [rows[0] || null] is the
    first matching row.  Asynchronous calls are awaited one after the other,
    so every operation is a function from the table to a result and the next
    table.  Wall-clock readings and fresh identifiers (uuid, random bytes)
    are inputs of the operations. *)

From stdpp Require Import base option list strings gmap pretty.
From Stdlib Require Import ZArith Lia.

Open Scope string_scope.
Open Scope Z_scope.

(** ** JavaScript truthiness of optional strings, and numbers *)

Module JS.

(** [!!s] for a value of type [string | null | undefined]: the empty
    string is falsy like the absent value. *)
Definition truthy (s : option string) : bool :=
  match s with
  | Some x => negb (String.eqb x "")
  | None => false
  end.

(** [s || null] *)
Definition or_null (s : option string) : option string :=
  if truthy s then s else None.

(** SQL [COALESCE(a, b)] *)
Definition coalesce {A} (a b : option A) : option A :=
  match a with
  | Some _ => a
  | None => b
  end.

(** The integer-valued numbers: a [number] is an IEEE 754 double, whose
    integers are those with at most 53 significant bits below [2^1024]. *)
Inductive number : Type :=
  | Finite (z : Z)
  | Infinite (negative : bool)
  | NaN.

(** The double nearest to the integer [z], ties to the even significand,
    [Infinity] from [2^1024] on. *)
Definition toDouble (z : Z) : number :=
  let a := Z.abs z in
  if a <? 2 ^ 53 then Finite z
  else
    let sh := Z.log2 a - 52 in
    let q := Z.shiftr a sh in
    let r := a - Z.shiftl q sh in
    let half := Z.shiftl 1 (sh - 1) in
    let q' := if (half <? r) || ((r =? half) && Z.odd q) then q + 1 else q in
    let m := Z.shiftl q' sh in
    if 2 ^ 1024 <=? m then Infinite (z <? 0) else Finite (Z.sgn z * m).

(** [a * b] for a number [a] and an integer [b] *)
Definition mul (a : number) (b : Z) : number :=
  match a with
  | Finite x => toDouble (x * b)
  | Infinite negative =>
      if b =? 0 then NaN else Infinite (xorb negative (b <? 0))
  | NaN => NaN
  end.

End JS.

(** ** models/User.ts *)

Module User.

Record UserData : Type := mkUser {
  id : string;
  email : string;
  passwordHash : option string;
  name : string;
  role : string;
  oauthProvider : option string;
  oauthId : option string;
  picture : option string;
  emailVerified : bool;
  preferences : string;
  createdAt : Z;
  updatedAt : Z;
  lastLogin : option Z
}.

(** The argument of [User.create]: [Omit<UserData, 'id' | 'createdAt' | 'updatedAt'>]. *)
Record CreateData : Type := mkCreate {
  c_email : string;
  c_passwordHash : option string;
  c_name : string;
  c_role : string;
  c_oauthProvider : option string;
  c_oauthId : option string;
  c_picture : option string;
  c_emailVerified : option bool;
  c_preferences : option string
}.

Definition table : Type := list UserData.

(** A row as the code holds it is the object pg builds for it, keyed by
    column name.  The fields of [UserData] above stand for the columns
    [id], [email], [password_hash], [name], [role], [oauth_provider],
    [oauth_id], [picture], [email_verified], [preferences], [created_at],
    [updated_at], [last_login]; no function of the service renames the
    keys of a row. *)
Inductive Value : Type :=
  | VNull
  | VString (s : string)
  | VBool (b : bool)
  | VTime (t : Z).

Definition nullable (o : option string) : Value :=
  match o with
  | Some s => VString s
  | None => VNull
  end.

(** [row[key]]: [None] is [undefined], the value of a key the object
    does not have. *)
Definition prop (key : string) (row : UserData) : option Value :=
  if String.eqb key "id" then Some (VString (id row))
  else if String.eqb key "email" then Some (VString (email row))
  else if String.eqb key "password_hash" then Some (nullable (passwordHash row))
  else if String.eqb key "name" then Some (VString (name row))
  else if String.eqb key "role" then Some (VString (role row))
  else if String.eqb key "oauth_provider" then Some (nullable (oauthProvider row))
  else if String.eqb key "oauth_id" then Some (nullable (oauthId row))
  else if String.eqb key "picture" then Some (nullable (picture row))
  else if String.eqb key "email_verified" then Some (VBool (emailVerified row))
  else if String.eqb key "preferences" then Some (VString (preferences row))
  else if String.eqb key "created_at" then Some (VTime (createdAt row))
  else if String.eqb key "updated_at" then Some (VTime (updatedAt row))
  else if String.eqb key "last_login"
  then Some (match lastLogin row with Some t => VTime t | None => VNull end)
  else None.

(** [row[key]] where the code goes on with a string: [undefined] and
    [null] are the absent string. *)
Definition propString (key : string) (row : UserData) : option string :=
  match prop key row with
  | Some (VString s) => Some s
  | _ => None
  end.

(** What the database answers to a refused INSERT. *)
Inductive DbError : Type :=
  | NotNullViolation (column : string)
  | UniqueViolation (constraint : string).

(** [INSERT INTO users ... RETURNING *] with the values array of [create];
    [newId] is [uuidv4()], [now] is [new Date()].  The row is checked
    against the NOT NULL constraint of [password_hash], then against the
    primary key and the unique index on [email]; [pool.query] rejects with
    the violation, and [create] with it. *)
Definition create (newId : string) (now : Z) (d : CreateData) (db : table)
  : DbError + (UserData * table) :=
  let row :=
    {| id := newId;
       email := c_email d;
       passwordHash := JS.or_null (c_passwordHash d);
       name := c_name d;
       role := c_role d;
       oauthProvider := JS.or_null (c_oauthProvider d);
       oauthId := JS.or_null (c_oauthId d);
       picture := JS.or_null (c_picture d);
       emailVerified := default false (c_emailVerified d);
       preferences := default "{}" (c_preferences d);
       createdAt := now;
       updatedAt := now;
       lastLogin := None |} in
  match passwordHash row with
  | None => inl (NotNullViolation "password_hash")
  | Some _ =>
      if existsb (fun u => String.eqb (id u) newId) db
      then inl (UniqueViolation "users_pkey")
      else if existsb (fun u => String.eqb (email u) (c_email d)) db
      then inl (UniqueViolation "users_email_key")
      else inr (row, (db ++ [row])%list)
  end.

(** [SELECT * FROM users WHERE id = $1], [rows[0] || null] *)
Definition findById (i : string) (db : table) : option UserData :=
  List.find (fun u => String.eqb (id u) i) db.

(** [SELECT * FROM users WHERE email = $1], [rows[0] || null] *)
Definition findByEmail (e : string) (db : table) : option UserData :=
  List.find (fun u => String.eqb (email u) e) db.

(** [UPDATE users SET last_login = CURRENT_TIMESTAMP WHERE id = $1] *)
Definition updateLastLogin (userId : string) (now : Z) (db : table) : table :=
  List.map (fun u =>
    if String.eqb (id u) userId then
      {| id := id u; email := email u; passwordHash := passwordHash u;
         name := name u; role := role u; oauthProvider := oauthProvider u;
         oauthId := oauthId u; picture := picture u;
         emailVerified := emailVerified u; preferences := preferences u;
         createdAt := createdAt u; updatedAt := updatedAt u;
         lastLogin := Some now |}
    else u) db.

(** [UPDATE users SET preferences = $1, updated_at = CURRENT_TIMESTAMP WHERE id = $2] *)
Definition updatePreferences (userId : string) (prefs : string) (now : Z)
    (db : table) : table :=
  List.map (fun u =>
    if String.eqb (id u) userId then
      {| id := id u; email := email u; passwordHash := passwordHash u;
         name := name u; role := role u; oauthProvider := oauthProvider u;
         oauthId := oauthId u; picture := picture u;
         emailVerified := emailVerified u; preferences := prefs;
         createdAt := createdAt u; updatedAt := now;
         lastLogin := lastLogin u |}
    else u) db.

(** [createOAuthUser]: [role || 'user'], [emailVerified: true], no password. *)
Definition createOAuthUser (newId : string) (now : Z)
    (e n provider oid : string) (pic : option string) (r : option string)
    (db : table) : DbError + (UserData * table) :=
  create newId now
    {| c_email := e;
       c_passwordHash := None;
       c_name := n;
       c_role := default "user" (JS.or_null r);
       c_oauthProvider := Some provider;
       c_oauthId := Some oid;
       c_picture := pic;
       c_emailVerified := Some true;
       c_preferences := None |} db.

(** The row written by [updateOAuthInfo]:
    [SET oauth_provider = $1, oauth_id = $2, picture = COALESCE($3, picture),
     updated_at = CURRENT_TIMESTAMP]. *)
Definition setOAuth (provider oid pic : option string) (now : Z)
    (u : UserData) : UserData :=
  {| id := id u; email := email u; passwordHash := passwordHash u;
     name := name u; role := role u;
     oauthProvider := provider;
     oauthId := oid;
     picture := JS.coalesce pic (picture u);
     emailVerified := emailVerified u; preferences := preferences u;
     createdAt := createdAt u; updatedAt := now;
     lastLogin := lastLogin u |}.

(** [updateOAuthInfo(userId, provider, oauthId, additionalData?)]; [pic] is
    [additionalData?.picture]. *)
Definition updateOAuthInfo (userId : string) (provider oid pic : option string)
    (now : Z) (db : table) : table :=
  List.map (fun u =>
    if String.eqb (id u) userId then setOAuth provider oid pic now u else u) db.

(** The row a user turns into under [updateOAuthInfo] for [userId]: the
    [SET] clause where the [WHERE] clause holds, the row itself elsewhere. *)
Definition relinked (userId : string) (provider oid pic : option string)
    (now : Z) (u : UserData) : UserData :=
  if String.eqb (id u) userId then setOAuth provider oid pic now u else u.

(** [SELECT * FROM users WHERE oauth_provider = $1 AND oauth_id = $2];
    a NULL column matches nothing. *)
Definition oauthMatches (provider oid : string) (u : UserData) : bool :=
  match oauthProvider u, oauthId u with
  | Some p, Some o => String.eqb p provider && String.eqb o oid
  | _, _ => false
  end.

Definition findByOAuthId (provider oid : string) (db : table) : option UserData :=
  List.find (oauthMatches provider oid) db.

(** [linkOAuthAccount]: throws when the identity belongs to another id. *)
Definition linkOAuthAccount (userId provider oid : string) (pic : option string)
    (now : Z) (db : table) : string + table :=
  match findByOAuthId provider oid db with
  | Some existingUser =>
      if negb (String.eqb (id existingUser) userId)
      then inl "OAuth account already linked to another user"
      else inr (updateOAuthInfo userId (Some provider) (Some oid) pic now db)
  | None => inr (updateOAuthInfo userId (Some provider) (Some oid) pic now db)
  end.

End User.

(** ** The jsonwebtoken library, symbolically

    A token is either a string that does not parse as a JWT, or claims signed
    under some key with an issue time and an expiry (in seconds).  A signature
    verifies exactly under the key that produced it. *)

Module Jwt.

(** The payload signed by the routes: [{ userId, email, role }]. *)
Record Payload : Type := mkPayload {
  userId : string;
  email : string;
  role : string
}.

Inductive Token : Type :=
  | Malformed (raw : string)
  | Signed (key : string) (payload : Payload) (iat exp : Z).

(** The error classes of the library.  [TokenExpiredError] and
    [NotBeforeError] are created with
    [X.prototype = Object.create(JsonWebTokenError.prototype)]: both are
    subclasses of [JsonWebTokenError]. *)
Inductive ErrorClass : Type :=
  | JsonWebTokenError
  | TokenExpiredError
  | NotBeforeError.

(** [err.name] *)
Definition className (c : ErrorClass) : string :=
  match c with
  | JsonWebTokenError => "JsonWebTokenError"
  | TokenExpiredError => "TokenExpiredError"
  | NotBeforeError => "NotBeforeError"
  end.

(** [err instanceof cls] for an error constructed by class [c], along the
    prototype chain. *)
Definition instanceOf (c cls : ErrorClass) : bool :=
  match cls, c with
  | JsonWebTokenError, _ => true
  | TokenExpiredError, TokenExpiredError => true
  | NotBeforeError, NotBeforeError => true
  | _, _ => false
  end.

(** ['24h'] in seconds *)
Definition expiresIn : Z := 24 * 60 * 60.

(** [jwt.sign(payload, secret, { expiresIn: '24h' })] at clock [now] *)
Definition sign (p : Payload) (secret : string) (now : Z) : Token :=
  Signed secret p now (now + expiresIn).

(** [jwt.verify(token, secret)] at clock [now]: the signature is checked
    first, then the expiry ([now >= exp] is expired). *)
Definition verify (t : Token) (secret : string) (now : Z) : ErrorClass + Payload :=
  match t with
  | Malformed _ => inl JsonWebTokenError
  | Signed key p _ exp =>
      if negb (String.eqb key secret) then inl JsonWebTokenError
      else if exp <=? now then inl TokenExpiredError
      else inr p
  end.

(** [!token] *)
Definition falsy (t : option Token) : bool :=
  match t with
  | None => true
  | Some (Malformed raw) => String.eqb raw ""
  | Some (Signed _ _ _ _) => false
  end.

(** [process.env.JWT_SECRET || 'fallback-secret'] *)
Definition secretOf (env_JWT_SECRET : option string) : string :=
  default "fallback-secret" (JS.or_null env_JWT_SECRET).

End Jwt.

(** ** HTTP responses of the routes: [res.status(n).json(body)] *)

Module Http.

Record PublicUser : Type := mkPublic {
  pu_id : string;
  pu_email : string;
  pu_name : string;
  pu_role : string
}.

Inductive Body : Type :=
  | ErrorBody (error : string)
  | MessageBody (message : string)
  | AuthBody (message : string) (token : Jwt.Token) (user : PublicUser)
  | TokenBody (token : Jwt.Token).

Record Response : Type := mkResponse {
  status : Z;
  body : Body
}.

Definition publicOf (u : User.UserData) : PublicUser :=
  {| pu_id := User.id u; pu_email := User.email u;
     pu_name := User.name u; pu_role := User.role u |}.

(** [{ userId: user.id, email: user.email, role: user.role }] *)
Definition payloadOf (u : User.UserData) : Jwt.Payload :=
  {| Jwt.userId := User.id u; Jwt.email := User.email u; Jwt.role := User.role u |}.

End Http.

(** ** routes/oauth.ts: the PKCE store *)

Module Pkce.

Record entry : Type := mkEntry {
  challenge : string;
  verifier : string;
  expires : Z
}.

(** [pkceStore]: a JS object used as a map from key to entry.  A key
    the object only inherits (such as [constructor]) reads as a value with
    no [challenge] field, which equals no presented string: it behaves as
    an absent key. *)
Abbreviation store := (gmap string entry).

(** [generatePKCE]: [verifier] and [key] are the random bytes drawn,
    [sha256] the digest, [now] is [Date.now()] in milliseconds.  The entry
    is stored, then the expired entries are swept. *)
Definition generatePKCE (sha256 : string -> string) (verifier key : string)
    (now : Z) (s : store) : (string * string) * store :=
  let challenge := sha256 verifier in
  let s1 := <[key := {| challenge := challenge; verifier := verifier;
                        expires := now + 10 * 60 * 1000 |}]> s in
  let s2 := filter (fun kv => ¬ (expires kv.2 < now)) s1 in
  ((key, challenge), s2).

(** [verifyPKCE(key, challenge)] *)
Definition verifyPKCE (key challenge : string) (now : Z) (s : store)
  : option string * store :=
  match s !! key with
  | None => (None, s)
  | Some stored =>
      if (expires stored <? now) || negb (String.eqb (Pkce.challenge stored) challenge)
      then (None, s)
      else (Some (verifier stored), delete key s)
  end.

End Pkce.

(** ** config/oauth.ts: the Passport verify callbacks *)

Module OAuthConfig.

Inductive Provider : Type := google | github | microsoft.

(** The provider literal written to [oauth_provider]. *)
Definition providerName (p : Provider) : string :=
  match p with
  | google => "google"
  | github => "github"
  | microsoft => "microsoft"
  end.

(** The provider as spelled in the error message. *)
Definition providerLabel (p : Provider) : string :=
  match p with
  | google => "Google"
  | github => "GitHub"
  | microsoft => "Microsoft"
  end.

(** What the callbacks read of the Passport profile: [profile.id],
    [profile.emails?.[0]?.value], [profile.displayName],
    [profile.username], [profile.photos?.[0]?.value]. *)
Record Profile : Type := mkProfile {
  profile_id : string;
  emails0 : option string;
  displayName : string;
  username : string;
  photos0 : option string
}.

(** [profile.displayName], and for GitHub [profile.displayName || profile.username] *)
Definition nameOf (p : Provider) (prof : Profile) : string :=
  match p with
  | github => if String.eqb (displayName prof) "" then username prof
              else displayName prof
  | _ => displayName prof
  end.

(** The error a callback hands to [done(error, false)]: the one it
    builds for a profile without an email, or the one a call to [User]
    raised. *)
Inductive Failure : Type :=
  | NoEmail (message : string)
  | Raised (e : User.DbError).

(** The verify callback of the strategy of provider [p]; the three
    callbacks differ in the provider literal, the message and [nameOf].
    [inl e] is [done(e, false)], [inr user] is [done(null, user)].  The
    test [!user.oauthProvider] reads the key [oauthProvider] of the row
    found. *)
Definition verifyCallback (p : Provider) (prof : Profile) (newId : string)
    (now : Z) (db : User.table) : (Failure + User.UserData) * User.table :=
  match JS.or_null (emails0 prof) with
  | None => (inl (NoEmail ("No email provided by " ++ providerLabel p)), db)
  | Some email =>
      match User.findByEmail email db with
      | Some user =>
          if negb (JS.truthy (User.propString "oauthProvider" user))
          then (inr user,
                User.updateOAuthInfo (User.id user) (Some (providerName p))
                  (Some (profile_id prof)) (JS.or_null (photos0 prof)) now db)
          else (inr user, db)
      | None =>
          match User.createOAuthUser newId now email (nameOf p prof)
                  (providerName p) (profile_id prof) (photos0 prof) None db with
          | inl e => (inl (Raised e), db)
          | inr (user, db') => (inr user, db')
          end
      end
  end.

(** [passport.serializeUser]: the session keeps [user.id]. *)
Definition serializeUser (user : User.UserData) : string := User.id user.

(** [passport.deserializeUser]: [done(null, user)] with the row of that id,
    [null] when there is none. *)
Definition deserializeUser (id : string) (db : User.table) : option User.UserData :=
  User.findById id db.

End OAuthConfig.

(** ** middleware/auth.ts and middleware/errorHandler.js *)

Module Middleware.

(** The outcome of [authenticateToken]: a response, or [next()] with
    [req.user] set. *)
Inductive Outcome : Type :=
  | Respond (r : Http.Response)
  | Next (user : User.UserData).

(** The [catch] block of [authenticateToken] for an error thrown by
    [jwt.verify]: the [instanceof] tests in the order written. *)
Definition onVerifyError (c : Jwt.ErrorClass) : Http.Response :=
  if Jwt.instanceOf c Jwt.JsonWebTokenError
  then {| Http.status := 401; Http.body := Http.ErrorBody "Invalid token" |}
  else if Jwt.instanceOf c Jwt.TokenExpiredError
  then {| Http.status := 401; Http.body := Http.ErrorBody "Token expired" |}
  else {| Http.status := 500; Http.body := Http.ErrorBody "Internal server error" |}.

(** [authenticateToken]; [bearer] is [authHeader && authHeader.split(' ')[1]]. *)
Definition authenticateToken (JWT_SECRET : option string)
    (bearer : option Jwt.Token) (now : Z) (db : User.table) : Outcome :=
  if Jwt.falsy bearer
  then Respond {| Http.status := 401; Http.body := Http.ErrorBody "Access token required" |}
  else
    match bearer with
    | None => Respond {| Http.status := 401; Http.body := Http.ErrorBody "Access token required" |}
    | Some t =>
        match Jwt.verify t (Jwt.secretOf JWT_SECRET) now with
        | inl c => Respond (onVerifyError c)
        | inr decoded =>
            match User.findById (Jwt.userId decoded) db with
            | None => Respond {| Http.status := 401; Http.body := Http.ErrorBody "Invalid token" |}
            | Some user => Next user
            end
        end
    end.

(** [errorHandler(err, req, res, next)] reads [err.name] and [err.message]. *)
Definition errorHandler (err_name err_message : string) : Http.Response :=
  if String.eqb err_name "ValidationError"
  then {| Http.status := 400; Http.body := Http.ErrorBody err_message |}
  else if String.eqb err_name "JsonWebTokenError"
  then {| Http.status := 401; Http.body := Http.ErrorBody "Invalid token" |}
  else if String.eqb err_name "TokenExpiredError"
  then {| Http.status := 401; Http.body := Http.ErrorBody "Token expired" |}
  else {| Http.status := 500; Http.body := Http.ErrorBody "Internal server error" |}.

(** The outcome of a guard that leaves [req.user] alone: a response, or
    [next()]. *)
Inductive Gate : Type :=
  | Deny (r : Http.Response)
  | Pass.


(** [requireRole(roles)] *)
Definition requireRole (roles : list string) (req_user : option User.UserData) : Gate :=
  match req_user with
  | None => Deny {| Http.status := 401; Http.body := Http.ErrorBody "Authentication required" |}
  | Some user =>
      if negb (existsb (String.eqb (User.role user)) roles)
      then Deny {| Http.status := 403; Http.body := Http.ErrorBody "Insufficient permissions" |}
      else Pass
  end.

(** [requireAdmin = requireRole(['admin'])] *)
Definition requireAdmin : option User.UserData -> Gate := requireRole ["admin"].

(** [req.params.userId || req.params.id] *)
Definition requestedUserId (params_userId params_id : option string) : option string :=
  match JS.or_null params_userId with
  | Some x => Some x
  | None => params_id
  end.

(** [canAccessUser]: [req.user.id === requestedUserId] is false when no
    parameter is there. *)
Definition canAccessUser (params_userId params_id : option string)
    (req_user : option User.UserData) : Gate :=
  match req_user with
  | None => Deny {| Http.status := 401; Http.body := Http.ErrorBody "Authentication required" |}
  | Some user =>
      let isAdmin := String.eqb (User.role user) "admin" in
      let isOwner :=
        match requestedUserId params_userId params_id with
        | Some r => String.eqb (User.id user) r
        | None => false
        end in
      if negb isAdmin && negb isOwner
      then Deny {| Http.status := 403; Http.body := Http.ErrorBody "Access denied" |}
      else Pass
  end.

End Middleware.

(** ** routes/auth.ts: register, login, refresh, profile update *)

Module AuthRoutes.

Section Routes.

(** [bcrypt.hash(password, 12)] with the salt it draws, and [bcrypt.compare]. *)
Variable bcrypt_hash : string -> string -> string.
Variable bcrypt_compare : string -> string -> bool.
(** [process.env.JWT_SECRET] *)
Variable JWT_SECRET : option string.

Definition register (email password name : string) (role : option string)
    (salt newId : string) (now : Z) (db : User.table)
  : Http.Response * User.table :=
  match User.findByEmail email db with
  | Some _ => ({| Http.status := 400; Http.body := Http.ErrorBody "User already exists" |}, db)
  | None =>
      let passwordHash := bcrypt_hash salt password in
      match
        User.create newId now
          {| User.c_email := email;
             User.c_passwordHash := Some passwordHash;
             User.c_name := name;
             User.c_role := default "user" role;
             User.c_oauthProvider := None;
             User.c_oauthId := None;
             User.c_picture := None;
             User.c_emailVerified := None;
             User.c_preferences := None |} db
      with
      | inl _ =>
          ({| Http.status := 500; Http.body := Http.ErrorBody "Internal server error" |}, db)
      | inr (user, db') =>
          let token := Jwt.sign (Http.payloadOf user) (Jwt.secretOf JWT_SECRET) now in
          ({| Http.status := 201;
              Http.body := Http.AuthBody "User created successfully" token
                             (Http.publicOf user) |}, db')
      end
  end.

(** [POST /login]; the test [!user.passwordHash] and the hash handed to
    [bcrypt.compare] read the key [passwordHash] of the row found. *)
Definition login (email password : string) (now : Z) (db : User.table)
  : Http.Response * User.table :=
  match User.findByEmail email db with
  | None => ({| Http.status := 401; Http.body := Http.ErrorBody "Invalid credentials" |}, db)
  | Some user =>
      if negb (JS.truthy (User.propString "passwordHash" user))
      then ({| Http.status := 401;
               Http.body := Http.ErrorBody
                 "This account uses OAuth login. Please use Google, GitHub, or Microsoft to sign in." |}, db)
      else
        if negb (bcrypt_compare password (default "" (User.propString "passwordHash" user)))
        then ({| Http.status := 401; Http.body := Http.ErrorBody "Invalid credentials" |}, db)
        else
          let db' := User.updateLastLogin (User.id user) now db in
          let token := Jwt.sign (Http.payloadOf user) (Jwt.secretOf JWT_SECRET) now in
          ({| Http.status := 200;
              Http.body := Http.AuthBody "Login successful" token
                             (Http.publicOf user) |}, db')
  end.

(** [POST /refresh]; [token] is [req.body.token]. *)
Definition refresh (token : option Jwt.Token) (now : Z) (db : User.table)
  : Http.Response :=
  if Jwt.falsy token
  then {| Http.status := 401; Http.body := Http.ErrorBody "Token required" |}
  else
    match token with
    | None => {| Http.status := 401; Http.body := Http.ErrorBody "Token required" |}
    | Some t =>
        match Jwt.verify t (Jwt.secretOf JWT_SECRET) now with
        | inl _ => {| Http.status := 401; Http.body := Http.ErrorBody "Invalid token" |}
        | inr decoded =>
            match User.findById (Jwt.userId decoded) db with
            | None => {| Http.status := 401; Http.body := Http.ErrorBody "Invalid token" |}
            | Some user =>
                let newToken :=
                  Jwt.sign (Http.payloadOf user) (Jwt.secretOf JWT_SECRET) now in
                {| Http.status := 200; Http.body := Http.TokenBody newToken |}
            end
        end
    end.

(** [PUT /profile] behind [authenticateToken]; [preferences] is
    [req.body.preferences] as JSON text, absent when falsy.  The [name]
    of the body is read and not stored. *)
Definition updateProfile (bearer : option Jwt.Token) (preferences : option string)
    (now : Z) (db : User.table) : Http.Response * User.table :=
  match Middleware.authenticateToken JWT_SECRET bearer now db with
  | Middleware.Respond r => (r, db)
  | Middleware.Next user =>
      ({| Http.status := 200;
          Http.body := Http.MessageBody "Profile updated successfully" |},
       match preferences with
       | Some prefs => User.updatePreferences (User.id user) prefs now db
       | None => db
       end)
  end.

(** The [user] object of the body of [GET /profile]: the nine properties
    of the object literal, each the value of the key read off the row;
    [None] is a property [res.json] leaves out ([undefined]). *)
Record ProfileView : Type := mkView {
  v_id : option User.Value;
  v_email : option User.Value;
  v_name : option User.Value;
  v_role : option User.Value;
  v_oauthProvider : option User.Value;
  v_picture : option User.Value;
  v_emailVerified : option User.Value;
  v_createdAt : option User.Value;
  v_lastLogin : option User.Value
}.

Inductive ProfileResult : Type :=
  | ProfileDenied (r : Http.Response)
  | ProfileOk (user : ProfileView).

Definition viewOf (u : User.UserData) : ProfileView :=
  {| v_id := User.prop "id" u; v_email := User.prop "email" u;
     v_name := User.prop "name" u; v_role := User.prop "role" u;
     v_oauthProvider := User.prop "oauthProvider" u;
     v_picture := User.prop "picture" u;
     v_emailVerified := User.prop "emailVerified" u;
     v_createdAt := User.prop "createdAt" u;
     v_lastLogin := User.prop "lastLogin" u |}.

(** [GET /profile] behind [authenticateToken], which sets [req.user]
    whenever it calls [next()]. *)
Definition getProfile (bearer : option Jwt.Token) (now : Z) (db : User.table)
  : ProfileResult :=
  match Middleware.authenticateToken JWT_SECRET bearer now db with
  | Middleware.Respond r => ProfileDenied r
  | Middleware.Next user => ProfileOk (viewOf user)
  end.

End Routes.

End AuthRoutes.

(** ** routes/oauth.ts: link and unlink *)

Module OAuthRoutes.

(** [['google', 'github', 'microsoft'].includes(provider)] *)
Definition knownProvider (provider : string) : bool :=
  existsb (String.eqb provider) ["google"; "github"; "microsoft"].

(** [POST /link/:provider] with body [{ userId, oauthId }] *)
Definition link (provider userId oauthId : string) (now : Z) (db : User.table)
  : Http.Response * User.table :=
  if negb (knownProvider provider)
  then ({| Http.status := 400; Http.body := Http.ErrorBody "Invalid OAuth provider" |}, db)
  else
    match User.findById userId db with
    | None => ({| Http.status := 404; Http.body := Http.ErrorBody "User not found" |}, db)
    | Some _ =>
        let conflict :=
          match User.findByOAuthId provider oauthId db with
          | Some existingUser => negb (String.eqb (User.id existingUser) userId)
          | None => false
          end in
        if conflict
        then ({| Http.status := 409;
                 Http.body := Http.ErrorBody "OAuth account already linked to another user" |}, db)
        else
          match User.linkOAuthAccount userId provider oauthId None now db with
          | inl _ => ({| Http.status := 500; Http.body := Http.ErrorBody "Internal server error" |}, db)
          | inr db' => ({| Http.status := 200;
                           Http.body := Http.MessageBody "OAuth account linked successfully" |}, db')
          end
    end.

(** [POST /unlink/:provider] with body [{ userId }] *)
Definition unlink (provider userId : string) (now : Z) (db : User.table)
  : Http.Response * User.table :=
  if negb (knownProvider provider)
  then ({| Http.status := 400; Http.body := Http.ErrorBody "Invalid OAuth provider" |}, db)
  else
    match User.findById userId db with
    | None => ({| Http.status := 404; Http.body := Http.ErrorBody "User not found" |}, db)
    | Some _ =>
        ({| Http.status := 200;
            Http.body := Http.MessageBody "OAuth account unlinked successfully" |},
         User.updateOAuthInfo userId None None None now db)
    end.

Section Callback.

(** The parsed URLs, and [new URL(s)]: [None] when the constructor throws,
    as it does for a string that is no absolute URL. *)
Variable URL : Type.
Variable parseURL : string -> option URL.

(** Where a callback route sends the browser: to the frontend, at the
    parsed base with the path and the two search parameters set, or, from
    the [catch] block, to the login page with an error code. *)
Inductive Redirect : Type :=
  | ToFrontend (base : URL) (pathname : string) (param_token : Jwt.Token)
      (param_provider : string)
  | ToLogin (error : string).

(** The handler of [GET /<provider>/callback] once Passport has set
    [req.user] to the user handed over by the verify callback. *)
Definition callbackRoute (JWT_SECRET FRONTEND_URL : option string)
    (p : OAuthConfig.Provider) (user : User.UserData) (now : Z) : Redirect :=
  let token := Jwt.sign (Http.payloadOf user) (Jwt.secretOf JWT_SECRET) now in
  match parseURL (default "http://localhost:3000" (JS.or_null FRONTEND_URL)) with
  | Some redirectUrl =>
      ToFrontend redirectUrl "/auth/callback" token (OAuthConfig.providerName p)
  | None => ToLogin "oauth_callback_failed"
  end.

End Callback.

Arguments ToFrontend {URL}.
Arguments ToLogin {URL}.
Arguments callbackRoute {URL}.

End OAuthRoutes.

(** ** chat/services/ConversationManager.ts *)

Module ConversationManager.

Record ConversationData : Type := mkConversation {
  id : string;
  userId : string;
  adminId : option string;
  title : option string;
  metadata : string;
  startedAt : Z;
  endedAt : option Z;
  status : string
}.

Definition table : Type := list ConversationData.

(** [INSERT INTO conversations ... RETURNING *]: [metadata || {}] as JSON
    text, [status || 'active']; [ended_at] is not among the columns
    written. *)
Definition create (newId : string) (now : Z) (c_userId : string)
    (c_adminId c_title c_metadata c_status : option string) (db : table)
  : ConversationData * table :=
  let row :=
    {| id := newId;
       userId := c_userId;
       adminId := c_adminId;
       title := c_title;
       metadata := default "{}" c_metadata;
       startedAt := now;
       endedAt := None;
       status := default "active" (JS.or_null c_status) |} in
  (row, (db ++ [row])%list).

(** [SELECT * FROM conversations WHERE id = $1], [rows[0] || null] *)
Definition findById (i : string) (db : table) : option ConversationData :=
  List.find (fun c => String.eqb (id c) i) db.

(** [UPDATE conversations SET status = $1, ended_at = CASE WHEN $2 = 'ended'
    THEN CURRENT_TIMESTAMP ELSE NULL END WHERE id = $3] *)
Definition updateStatus (i : string) (newStatus : string) (now : Z) (db : table)
  : table :=
  List.map (fun c =>
    if String.eqb (id c) i then
      {| id := id c; userId := userId c; adminId := adminId c; title := title c;
         metadata := metadata c; startedAt := startedAt c;
         endedAt := if String.eqb newStatus "ended" then Some now else None;
         status := newStatus |}
    else c) db.

(** [UPDATE conversations SET admin_id = $1 WHERE id = $2] *)
Definition assignAdmin (conversationId newAdmin : string) (db : table) : table :=
  List.map (fun c =>
    if String.eqb (id c) conversationId then
      {| id := id c; userId := userId c; adminId := Some newAdmin; title := title c;
         metadata := metadata c; startedAt := startedAt c;
         endedAt := endedAt c; status := status c |}
    else c) db.

(** The [options] of [getAll]; [page] and [limit] range over the integers
    that are numbers. *)
Record Options : Type := mkOptions {
  page : option Z;
  limit : option Z;
  o_userId : option string;
  o_status : option string;
  startDate : option string;
  endDate : option string
}.

(** An element of [queryParams]. *)
Inductive Param : Type :=
  | PString (s : string)
  | PNumber (n : JS.number).

(** [whereConditions], [queryParams] and [paramIndex] as [getAll] threads
    them. *)
Definition builder : Type := (list string * list Param * Z)%type.

(** One of the four blocks
    [if (v) { whereConditions.push(`<condition> $${paramIndex}`);
              queryParams.push(v); paramIndex++; }],
    [condition] being the text up to and including the dollar sign. *)
Definition pushWhen (value : option string) (condition : string) (b : builder)
  : builder :=
  let '(whereConditions, queryParams, paramIndex) := b in
  match JS.or_null value with
  | Some v =>
      ((whereConditions ++ [(condition ++ pretty paramIndex)%string])%list,
       (queryParams ++ [PString v])%list,
       paramIndex + 1)
  | None => b
  end.

(** The builder after the four blocks, in the order written. *)
Definition filters (o : Options) : builder :=
  pushWhen (endDate o) "c.started_at <= $"
    (pushWhen (startDate o) "c.started_at >= $"
       (pushWhen (o_status o) "c.status = $"
          (pushWhen (o_userId o) "c.user_id = $" ([], [], 1)))).

Definition selectFrom : string := "
      SELECT c.*, u.name as user_name, a.name as admin_name
      FROM conversations c
      LEFT JOIN users u ON c.user_id = u.id
      LEFT JOIN users a ON c.admin_id = a.id
    ".

(** The text and the parameters [getAll] hands to [pool.query]: [page = 1]
    and [limit = 20] when absent, [offset = (page - 1) * limit] in the
    arithmetic of numbers, each operation rounding its result. *)
Definition getAllQuery (o : Options) : string * list Param :=
  let page := default 1 (page o) in
  let limit := default 20 (limit o) in
  let offset := JS.mul (JS.toDouble (page - 1)) limit in
  let '(whereConditions, queryParams, paramIndex) := filters o in
  let query :=
    selectFrom
    ++ (if (0 <? Z.of_nat (length whereConditions))
        then " WHERE " ++ String.concat " AND " whereConditions
        else "")
    ++ " ORDER BY c.started_at DESC LIMIT $" ++ pretty paramIndex
    ++ " OFFSET $" ++ pretty (paramIndex + 1) in
  (query, (queryParams ++ [PNumber (JS.Finite limit); PNumber offset])%list).

End ConversationManager.

(** ** chat/routes/chat.ts: the conversation routes *)

Module ChatRoutes.

(** [POST /conversations] with body [{ userId, title, metadata }]: answers
    201 with the row. *)
Definition createConversation (userId : string) (title metadata : option string)
    (newId : string) (now : Z) (db : ConversationManager.table)
  : (Z * ConversationManager.ConversationData) * ConversationManager.table :=
  let '(conversation, db') :=
    ConversationManager.create newId now userId None title metadata None db in
  ((201, conversation), db').

(** [PATCH /conversations/:id/status] with body [{ status }]: answers 200
    with a message. *)
Definition patchStatus (id status : string) (now : Z) (db : ConversationManager.table)
  : Http.Response * ConversationManager.table :=
  ({| Http.status := 200;
      Http.body := Http.MessageBody "Conversation status updated successfully" |},
   ConversationManager.updateStatus id status now db).

(** [GET /conversations/:id] as written: 404 when there is no such row. *)
Definition conversationDetails (id : string) (db : ConversationManager.table)
  : Http.Response + ConversationManager.ConversationData :=
  match ConversationManager.findById id db with
  | None => inl {| Http.status := 404; Http.body := Http.ErrorBody "Conversation not found" |}
  | Some conversation => inr conversation
  end.

End ChatRoutes.

(** ** Invariants of the tables *)

Module Invariant.

(** [u] and [v] carry the same (oauthProvider, oauthId) pair, both fields present. *)
Definition sameIdentity (u v : User.UserData) : Prop :=
  exists p o : string,
    User.oauthProvider u = Some p /\ User.oauthId u = Some o
    /\ User.oauthProvider v = Some p /\ User.oauthId v = Some o.

(** No two users (rows of different id) carry the same pair. *)
Definition oauthUnique (db : User.table) : Prop :=
  forall u v : User.UserData,
    In u db -> In v db -> sameIdentity u v -> User.id u = User.id v.


(** A password hash or a provider is present in the row. *)
Definition hasCredential (u : User.UserData) : Prop :=
  is_Some (User.passwordHash u) \/ is_Some (User.oauthProvider u).

Definition credentialInv (db : User.table) : Prop :=
  forall u : User.UserData, In u db -> hasCredential u.

(** One email, one account; one id, one row. *)
Definition emailUnique (db : User.table) : Prop := List.NoDup (List.map User.email db).

Definition idUnique (db : User.table) : Prop := List.NoDup (List.map User.id db).

(** [u'] is [u] up to the two columns [updatePreferences] writes. *)
Definition sameButPreferences (u u' : User.UserData) : Prop :=
  User.id u' = User.id u /\ User.email u' = User.email u
  /\ User.passwordHash u' = User.passwordHash u /\ User.name u' = User.name u
  /\ User.role u' = User.role u /\ User.oauthProvider u' = User.oauthProvider u
  /\ User.oauthId u' = User.oauthId u /\ User.picture u' = User.picture u
  /\ User.emailVerified u' = User.emailVerified u
  /\ User.createdAt u' = User.createdAt u /\ User.lastLogin u' = User.lastLogin u.

(** A conversation has an end time exactly when its status is [ended]. *)
Definition endedConsistent (c : ConversationManager.ConversationData) : Prop :=
  is_Some (ConversationManager.endedAt c) <-> ConversationManager.status c = "ended".

(** The filters of [getAll] that are given (a non-empty string), in the
    order the code tests them, each with the text of its condition up to
    the dollar sign. *)
Definition givenFilters (o : ConversationManager.Options) : list (string * string) :=
  omap (fun cv : string * option string =>
          match JS.or_null cv.2 with
          | Some v => Some (cv.1, v)
          | None => None
          end)
    [("c.user_id = $", ConversationManager.o_userId o);
     ("c.status = $", ConversationManager.o_status o);
     ("c.started_at >= $", ConversationManager.startDate o);
     ("c.started_at <= $", ConversationManager.endDate o)].

(** The [k]-th given filter (from 0) as a condition: its text, then the
    placeholder number [k + 1]. *)
Definition numbered (fs : list (string * string)) : list string :=
  imap (fun (k : nat) (cv : string * string) => cv.1 ++ pretty (Z.of_nat (S k))) fs.

(** The builder [getAll] holds once the blocks of the filters [fs] have
    run: their conditions, their values, and the next placeholder number. *)
Definition built (fs : list (string * string)) : ConversationManager.builder :=
  (numbered fs,
   List.map (fun cv : string * string => ConversationManager.PString cv.2) fs,
   1 + Z.of_nat (length fs)).

End Invariant.

(** ** Concrete tables, profiles, tokens and stores used by the examples *)

Module Sample.

(** A row without a password hash, linked to the Google identity [g-1001]. *)
Definition alice : User.UserData :=
  {| User.id := "u-alice"; User.email := "alice@example.com";
     User.passwordHash := None; User.name := "Alice"; User.role := "user";
     User.oauthProvider := Some "google"; User.oauthId := Some "g-1001";
     User.picture := Some "https://img.example.com/alice.png";
     User.emailVerified := true; User.preferences := "{}";
     User.createdAt := 1000; User.updatedAt := 1000; User.lastLogin := None |}.

(** A password account with no provider linked. *)
Definition bob : User.UserData :=
  {| User.id := "u-bob"; User.email := "bob@example.com";
     User.passwordHash := Some "$2a$12$:pw123"; User.name := "Bob"; User.role := "user";
     User.oauthProvider := None; User.oauthId := None;
     User.picture := None;
     User.emailVerified := false; User.preferences := "{}";
     User.createdAt := 1100; User.updatedAt := 1100; User.lastLogin := None |}.

(** A password account that kept a picture from an earlier, since removed, link. *)
Definition carol : User.UserData :=
  {| User.id := "u-carol"; User.email := "carol@example.com";
     User.passwordHash := Some "$2a$12$:s3cret"; User.name := "Carol"; User.role := "user";
     User.oauthProvider := None; User.oauthId := None;
     User.picture := Some "https://img.example.com/carol-old.png";
     User.emailVerified := true; User.preferences := "{}";
     User.createdAt := 1200; User.updatedAt := 1300; User.lastLogin := None |}.

(** A password account linked to the Google identity [g-1001]. *)
Definition erin : User.UserData :=
  {| User.id := "u-erin"; User.email := "erin@example.com";
     User.passwordHash := Some "$2a$12$:hunter2"; User.name := "Erin"; User.role := "user";
     User.oauthProvider := Some "google"; User.oauthId := Some "g-1001";
     User.picture := Some "https://img.example.com/erin.png";
     User.emailVerified := false; User.preferences := "{}";
     User.createdAt := 1050; User.updatedAt := 1400; User.lastLogin := None |}.

Definition db0 : User.table := [alice; bob].

(** A table the schema admits: every row has its password hash. *)
Definition db2 : User.table := [erin; bob; carol].

(** Google reports identity [g-1001] under Bob's address. *)
Definition googleAsBob : OAuthConfig.Profile :=
  {| OAuthConfig.profile_id := "g-1001";
     OAuthConfig.emails0 := Some "bob@example.com";
     OAuthConfig.displayName := "Alice"; OAuthConfig.username := "";
     OAuthConfig.photos0 := None |}.

(** GitHub reports identity [42] under Carol's address, with a new avatar. *)
Definition githubCarol : OAuthConfig.Profile :=
  {| OAuthConfig.profile_id := "42";
     OAuthConfig.emails0 := Some "carol@example.com";
     OAuthConfig.displayName := ""; OAuthConfig.username := "carol";
     OAuthConfig.photos0 := Some "https://img.example.com/carol-new.png" |}.

(** GitHub reports identity [77] under an address not in the table. *)
Definition githubNew : OAuthConfig.Profile :=
  {| OAuthConfig.profile_id := "77";
     OAuthConfig.emails0 := Some "dave@example.com";
     OAuthConfig.displayName := "Dave"; OAuthConfig.username := "dave";
     OAuthConfig.photos0 := None |}.

(** A stand-in for bcrypt: the hash records salt and password. *)
Definition toy_hash (salt password : string) : string :=
  "$2a$12$" ++ salt ++ ":" ++ password.
Definition toy_compare (password hash : string) : bool :=
  String.eqb hash ("$2a$12$:" ++ password).

(** A token for Bob signed with the fallback secret, carrying the role
    [admin], valid until 90000. *)
Definition staleToken : Jwt.Token :=
  Jwt.Signed "fallback-secret"
    {| Jwt.userId := "u-bob"; Jwt.email := "bob@example.com"; Jwt.role := "admin" |}
    3600 90000.

Definition entry1 : Pkce.entry :=
  {| Pkce.challenge := "E9Melhoa2OwvFrEMTJguCHaoeK1t8URWbuGJSstw-cM";
     Pkce.verifier := "dBjftJeZ4CVP-mB92K27uhbUJU1p1r_wW1gFWFOEjXk";
     Pkce.expires := 1700000600000 |}.

Definition store1 : Pkce.store := {[ "a3f1" := entry1 ]}.

End Sample.

(** * Properties *)

(** ** The PKCE store *)

Section PkceFacts.

Implicit Types (key presented : string) (now : Z) (s : Pkce.store) (e : Pkce.entry).

(** The three ways a verification can go, by the stored entry. *)
Lemma verifyPKCE_absent key presented now s :
  s !! key = None -> Pkce.verifyPKCE key presented now s = (None, s).
Proof. intros H. unfold Pkce.verifyPKCE. now rewrite H. Qed.

Lemma verifyPKCE_expired key presented now s e :
  s !! key = Some e -> Pkce.expires e < now ->
  Pkce.verifyPKCE key presented now s = (None, s).
Proof.
  intros H Hexp. unfold Pkce.verifyPKCE. rewrite H.
  apply Z.ltb_lt in Hexp. now rewrite Hexp.
Qed.

Lemma verifyPKCE_mismatch key presented now s e :
  s !! key = Some e -> presented <> Pkce.challenge e ->
  Pkce.verifyPKCE key presented now s = (None, s).
Proof.
  intros H Hne. unfold Pkce.verifyPKCE. rewrite H.
  assert (String.eqb (Pkce.challenge e) presented = false) as ->
    by (apply String.eqb_neq; congruence).
  now rewrite orb_true_r.
Qed.

Lemma verifyPKCE_match key now s e :
  s !! key = Some e -> ~ (Pkce.expires e < now) ->
  Pkce.verifyPKCE key (Pkce.challenge e) now s
  = (Some (Pkce.verifier e), delete key s).
Proof.
  intros H Hlive. unfold Pkce.verifyPKCE. rewrite H.
  assert ((Pkce.expires e <? now) = false) as -> by (apply Z.ltb_ge; lia).
  now rewrite String.eqb_refl.
Qed.

(** A verification that answers [null] has not touched the store. *)
Lemma verifyPKCE_none_unchanged key presented now s :
  (Pkce.verifyPKCE key presented now s).1 = None ->
  (Pkce.verifyPKCE key presented now s).2 = s.
Proof.
  unfold Pkce.verifyPKCE. destruct (s !! key) as [e|]; [|done].
  destruct (_ || _); [done|]. discriminate.
Qed.

(** A verification that answers a verifier read it from a live entry with
    the presented challenge, and removed that entry. *)
Lemma verifyPKCE_some_inv key presented now s v :
  (Pkce.verifyPKCE key presented now s).1 = Some v ->
  exists e, s !! key = Some e /\ ~ (Pkce.expires e < now)
            /\ presented = Pkce.challenge e /\ v = Pkce.verifier e
            /\ (Pkce.verifyPKCE key presented now s).2 = delete key s.
Proof.
  unfold Pkce.verifyPKCE. destruct (s !! key) as [e|] eqn:Hk; [|discriminate].
  destruct (Pkce.expires e <? now) eqn:Hx; [discriminate|].
  destruct (String.eqb (Pkce.challenge e) presented) eqn:Hc; [|discriminate].
  cbn. intros [= <-]. exists e. apply Z.ltb_ge in Hx. apply String.eqb_eq in Hc.
  repeat split; auto; lia.
Qed.

End PkceFacts.

(** C4, as stated, fails at the instant of expiry.  The entry of the sample
    store expires at 1700000600000.  At that clock reading its expiry is not
    in the future, and the call with the stored challenge answers the
    verifier and deletes the entry. *)
Lemma verifyPKCE_at_expiry_counterexample :
  Sample.store1 !! "a3f1" = Some Sample.entry1
  /\ ~ (1700000600000 < Pkce.expires Sample.entry1)
  /\ Pkce.verifyPKCE "a3f1" (Pkce.challenge Sample.entry1) 1700000600000 Sample.store1
     = (Some (Pkce.verifier Sample.entry1), delete "a3f1" Sample.store1).
Proof.
  split; [reflexivity|]. split; [cbn; lia|].
  apply verifyPKCE_match; [reflexivity|cbn; lia].
Qed.

(** C4, amended.  [verifyPKCE(key, presented)] at clock [now] answers the
    stored verifier exactly when the key is in the store, the entry is not
    past its expiry ([expires >= now], the complement of the
    [expires < Date.now()] test: the instant of expiry itself still
    verifies) and the presented challenge is the stored one; in every other case
    it answers [null], the single failure value.  A success deletes the
    entry, so any later call on the same key answers [null]; and an entry
    past its expiry answers [null] even for the stored challenge. *)
Theorem verifyPKCE_single_use_spec :
  forall (key presented : string) (now : Z) (s : Pkce.store),
    (forall v, (Pkce.verifyPKCE key presented now s).1 = Some v <->
       exists e, s !! key = Some e /\ ~ (Pkce.expires e < now)
                 /\ presented = Pkce.challenge e /\ v = Pkce.verifier e)
    /\ ((~ exists e, s !! key = Some e /\ ~ (Pkce.expires e < now)
                     /\ presented = Pkce.challenge e) ->
        Pkce.verifyPKCE key presented now s = (None, s))
    /\ (forall v, (Pkce.verifyPKCE key presented now s).1 = Some v ->
          (Pkce.verifyPKCE key presented now s).2 = delete key s
          /\ forall presented' now',
               (Pkce.verifyPKCE key presented' now'
                  (Pkce.verifyPKCE key presented now s).2).1 = None)
    /\ (forall e, s !! key = Some e -> Pkce.expires e < now ->
          Pkce.verifyPKCE key (Pkce.challenge e) now s = (None, s)).
Proof.
  intros key presented now s. repeat split.
  - intros H. destruct (verifyPKCE_some_inv _ _ _ _ _ H) as (e & ? & ? & ? & ? & _).
    eauto 6.
  - intros (e & Hk & Hlive & -> & ->). now rewrite (verifyPKCE_match _ _ _ _ Hk Hlive).
  - intros Hno. destruct (s !! key) as [e|] eqn:Hk.
    + destruct (decide (Pkce.expires e < now)) as [Hx|Hx].
      * eapply verifyPKCE_expired; eauto.
      * destruct (decide (presented = Pkce.challenge e)) as [Hc|Hc].
        -- exfalso. apply Hno. eauto.
        -- eapply verifyPKCE_mismatch; eauto.
    + now apply verifyPKCE_absent.
  - destruct (verifyPKCE_some_inv _ _ _ _ _ H) as (e & _ & _ & _ & _ & Hd). exact Hd.
  - intros presented' now'.
    destruct (verifyPKCE_some_inv _ _ _ _ _ H) as (e & _ & _ & _ & _ & Hd).
    rewrite Hd. rewrite verifyPKCE_absent; [done|]. apply lookup_delete_eq.
  - intros e Hk Hx. eapply verifyPKCE_expired; eauto.
Qed.

(** C10.  A failed verification does not consume the entry: on a live
    entry, a call with a challenge other than the stored one answers [null]
    and leaves the store as it was, so a later call with the stored
    challenge, made while the entry is still live, answers the verifier.
    Whenever a call answers [null] the store is unchanged: only a success
    deletes. *)
Theorem verifyPKCE_failure_keeps_entry :
  forall (key presented : string) (now now' : Z) (s : Pkce.store) (e : Pkce.entry),
    s !! key = Some e ->
    ~ (Pkce.expires e < now) ->
    presented <> Pkce.challenge e ->
    ~ (Pkce.expires e < now') ->
    Pkce.verifyPKCE key presented now s = (None, s)
    /\ (Pkce.verifyPKCE key presented now s).2 !! key = Some e
    /\ (Pkce.verifyPKCE key (Pkce.challenge e) now'
          (Pkce.verifyPKCE key presented now s).2).1 = Some (Pkce.verifier e)
    /\ (forall k p t (s0 : Pkce.store),
          (Pkce.verifyPKCE k p t s0).1 = None -> (Pkce.verifyPKCE k p t s0).2 = s0).
Proof.
  intros key presented now now' s e Hk Hlive Hne Hlive'.
  rewrite (verifyPKCE_mismatch _ _ now _ _ Hk Hne). cbn.
  repeat split; auto.
  - now rewrite (verifyPKCE_match _ _ _ _ Hk Hlive').
  - intros. now apply verifyPKCE_none_unchanged.
Qed.

(** A wrong guess on the sample store, then the stored challenge five minutes later. *)
Lemma verifyPKCE_failure_keeps_entry_witness :
  Pkce.verifyPKCE "a3f1" "guess" 1700000000000 Sample.store1 = (None, Sample.store1)
  /\ (Pkce.verifyPKCE "a3f1" (Pkce.challenge Sample.entry1) 1700000300000
        (Pkce.verifyPKCE "a3f1" "guess" 1700000000000 Sample.store1).2).1
     = Some (Pkce.verifier Sample.entry1).
Proof.
  destruct (verifyPKCE_failure_keeps_entry "a3f1" "guess" 1700000000000 1700000300000
              Sample.store1 Sample.entry1) as (H1 & _ & H3 & _).
  - reflexivity.
  - cbn; lia.
  - discriminate.
  - cbn; lia.
  - split; [exact H1 | exact H3].
Defined.

(** ** The users table *)

Section TableFacts.

Implicit Types (db : User.table) (u : User.UserData).

Lemma find_map_stable {A} (P : A -> bool) (f : A -> A) (l : list A) :
  (forall x, P (f x) = P x) ->
  List.find P (List.map f l) = option_map f (List.find P l).
Proof.
  intros Hf. induction l as [|x l IH]; [done|].
  cbn. rewrite Hf. destruct (P x); [done|exact IH].
Qed.

Lemma find_snoc_fresh {A} (P : A -> bool) (l : list A) (x : A) :
  List.find P l = None -> P x = true -> List.find P (l ++ [x])%list = Some x.
Proof.
  intros Hl Hx. induction l as [|y l IH]; cbn in *.
  - now rewrite Hx.
  - destruct (P y); [discriminate|auto].
Qed.

Lemma relinked_id userId pr oid pic now u :
  User.id (User.relinked userId pr oid pic now u) = User.id u.
Proof. unfold User.relinked. now destruct (String.eqb _ _). Qed.

Lemma relinked_email userId pr oid pic now u :
  User.email (User.relinked userId pr oid pic now u) = User.email u.
Proof. unfold User.relinked. now destruct (String.eqb _ _). Qed.

Lemma relinked_passwordHash userId pr oid pic now u :
  User.passwordHash (User.relinked userId pr oid pic now u) = User.passwordHash u.
Proof. unfold User.relinked. now destruct (String.eqb _ _). Qed.

Lemma updateOAuthInfo_map userId pr oid pic now db :
  User.updateOAuthInfo userId pr oid pic now db
  = List.map (User.relinked userId pr oid pic now) db.
Proof. reflexivity. Qed.

Lemma updateOAuthInfo_ids userId pr oid pic now db :
  List.map User.id (User.updateOAuthInfo userId pr oid pic now db) = List.map User.id db.
Proof.
  rewrite updateOAuthInfo_map, List.map_map.
  apply List.map_ext. intros u. apply relinked_id.
Qed.

Lemma updateOAuthInfo_passwordHashes userId pr oid pic now db :
  List.map User.passwordHash (User.updateOAuthInfo userId pr oid pic now db)
  = List.map User.passwordHash db.
Proof.
  rewrite updateOAuthInfo_map, List.map_map.
  apply List.map_ext. intros u. apply relinked_passwordHash.
Qed.

(** What [create] answers when the INSERT goes through: the key and the
    address were free, the row has its password hash, and the table grows
    by that row. *)
Lemma create_inr newId now d db row db' :
  User.create newId now d db = inr (row, db') ->
  db' = (db ++ [row])%list
  /\ User.id row = newId /\ User.email row = User.c_email d
  /\ User.passwordHash row = JS.or_null (User.c_passwordHash d)
  /\ is_Some (User.passwordHash row)
  /\ User.oauthProvider row = JS.or_null (User.c_oauthProvider d)
  /\ User.oauthId row = JS.or_null (User.c_oauthId d)
  /\ User.name row = User.c_name d /\ User.role row = User.c_role d
  /\ ~ In newId (List.map User.id db)
  /\ ~ In (User.c_email d) (List.map User.email db).
Proof.
  unfold User.create. cbn [User.passwordHash].
  destruct (JS.or_null (User.c_passwordHash d)) as [h|] eqn:Hh; [|discriminate].
  destruct (existsb (fun u => String.eqb (User.id u) newId) db) eqn:Hid; [discriminate|].
  destruct (existsb (fun u => String.eqb (User.email u) (User.c_email d)) db) eqn:Hem;
    [discriminate|].
  intros [= <- <-]. cbn.
  split; [done|]. split; [done|]. split; [done|]. split; [done|].
  split; [by eexists|]. split; [done|]. split; [done|]. split; [done|]. split; [done|].
  split.
  - intros Hin. apply List.in_map_iff in Hin as (u & Hu & Hin).
    assert (existsb (fun u => String.eqb (User.id u) newId) db = true) as Hex.
    { apply List.existsb_exists. exists u. split; [done|]. now apply String.eqb_eq. }
    congruence.
  - intros Hin. apply List.in_map_iff in Hin as (u & Hu & Hin).
    assert (existsb (fun u => String.eqb (User.email u) (User.c_email d)) db = true) as Hex.
    { apply List.existsb_exists. exists u. split; [done|]. now apply String.eqb_eq. }
    congruence.
Qed.

Lemma findByEmail_updateOAuthInfo e userId pr oid pic now db :
  User.findByEmail e (User.updateOAuthInfo userId pr oid pic now db)
  = option_map (User.relinked userId pr oid pic now) (User.findByEmail e db).
Proof.
  unfold User.findByEmail. rewrite updateOAuthInfo_map.
  apply find_map_stable. intros u. now rewrite relinked_email.
Qed.

Lemma findByEmail_email e db u :
  User.findByEmail e db = Some u -> User.email u = e.
Proof.
  intros H. apply List.find_some in H as [_ H]. now apply String.eqb_eq.
Qed.

Lemma findById_id i db u :
  User.findById i db = Some u -> User.id u = i.
Proof.
  intros H. apply List.find_some in H as [_ H]. now apply String.eqb_eq.
Qed.

Lemma findByOAuthId_matches provider oid db u :
  User.findByOAuthId provider oid db = Some u ->
  In u db /\ User.oauthProvider u = Some provider /\ User.oauthId u = Some oid.
Proof.
  intros H. apply List.find_some in H as [Hin H]. split; [done|].
  unfold User.oauthMatches in H.
  destruct (User.oauthProvider u) as [p|]; [|done].
  destruct (User.oauthId u) as [o|]; [|done].
  apply andb_prop in H as [Hp Ho].
  apply String.eqb_eq in Hp. apply String.eqb_eq in Ho. now subst.
Qed.

End TableFacts.

(** ** Identity resolution in the verify callbacks *)

Section ResolverFacts.

Implicit Types (p : OAuthConfig.Provider) (prof : OAuthConfig.Profile)
  (db : User.table) (u : User.UserData).

(** A row has the keys [oauth_provider] and [password_hash]; it has no key
    [oauthProvider] and no key [passwordHash]. *)
Lemma propString_oauthProvider u : User.propString "oauthProvider" u = None.
Proof. reflexivity. Qed.

Lemma propString_passwordHash u : User.propString "passwordHash" u = None.
Proof. reflexivity. Qed.

(** [createOAuthUser] hands [create] no password hash: the INSERT is
    refused. *)
Lemma createOAuthUser_refused newId now e n provider oid pic r db :
  User.createOAuthUser newId now e n provider oid pic r db
  = inl (User.NotNullViolation "password_hash").
Proof. reflexivity. Qed.

(** The callback by cases on the lookup by email. *)
Lemma verifyCallback_no_email p prof newId now db :
  JS.or_null (OAuthConfig.emails0 prof) = None ->
  OAuthConfig.verifyCallback p prof newId now db
  = (inl (OAuthConfig.NoEmail ("No email provided by " ++ OAuthConfig.providerLabel p)), db).
Proof. intros H. unfold OAuthConfig.verifyCallback. now rewrite H. Qed.

Lemma verifyCallback_found p prof newId now db e u :
  JS.or_null (OAuthConfig.emails0 prof) = Some e ->
  User.findByEmail e db = Some u ->
  OAuthConfig.verifyCallback p prof newId now db
  = (inr u,
     User.updateOAuthInfo (User.id u) (Some (OAuthConfig.providerName p))
       (Some (OAuthConfig.profile_id prof))
       (JS.or_null (OAuthConfig.photos0 prof)) now db).
Proof.
  intros He Hu. unfold OAuthConfig.verifyCallback. rewrite He, Hu.
  now rewrite propString_oauthProvider.
Qed.

Lemma verifyCallback_not_found p prof newId now db e :
  JS.or_null (OAuthConfig.emails0 prof) = Some e ->
  User.findByEmail e db = None ->
  OAuthConfig.verifyCallback p prof newId now db
  = (inl (OAuthConfig.Raised (User.NotNullViolation "password_hash")), db).
Proof.
  intros He Hu. unfold OAuthConfig.verifyCallback. rewrite He, Hu.
  now rewrite createOAuthUser_refused.
Qed.

(** The callback adds no row and removes none. *)
Lemma verifyCallback_ids p prof newId now db :
  List.map User.id (OAuthConfig.verifyCallback p prof newId now db).2 = List.map User.id db.
Proof.
  destruct (JS.or_null (OAuthConfig.emails0 prof)) as [e|] eqn:He.
  - destruct (User.findByEmail e db) as [u|] eqn:Hu.
    + rewrite (verifyCallback_found p prof newId now db e u He Hu).
      apply updateOAuthInfo_ids.
    + now rewrite (verifyCallback_not_found p prof newId now db e He Hu).
  - now rewrite verifyCallback_no_email.
Qed.

End ResolverFacts.

(** C1, as stated, fails.  Erin carries the pair (google, g-1001); Google
    reports that identity under Bob's address.  The callback makes no lookup
    by the pair: it finds Bob by email, writes the pair onto Bob's row and
    hands back Bob, not Erin. *)
Lemma callback_skips_identity_lookup_counterexample :
  User.findByOAuthId "google" "g-1001" Sample.db2 = Some Sample.erin
  /\ OAuthConfig.verifyCallback OAuthConfig.google Sample.googleAsBob "u-new" 2000 Sample.db2
     <> (inr Sample.erin, Sample.db2)
  /\ OAuthConfig.verifyCallback OAuthConfig.google Sample.googleAsBob "u-new" 2000 Sample.db2
     = (inr Sample.bob,
        [Sample.erin;
         User.setOAuth (Some "google") (Some "g-1001") None 2000 Sample.bob;
         Sample.carol]).
Proof. split; [reflexivity|]. split; [discriminate|reflexivity]. Qed.

(** C1, amended.  Resolution makes no lookup by the (provider, externalId)
    pair: what the callback hands to [done] is decided by the lookup by the
    profile's email alone.  When that lookup finds a user, the callback
    hands back that user, as the row the lookup read, whichever user
    carries the pair; and on two tables where the lookup by email gives the
    same answer the callback hands back the same. *)
Theorem callback_resolves_by_email_alone :
  forall (p : OAuthConfig.Provider) (prof : OAuthConfig.Profile)
         (newId : string) (now : Z) (db db' : User.table) (e : string),
    JS.or_null (OAuthConfig.emails0 prof) = Some e ->
    (forall u : User.UserData,
        User.findByEmail e db = Some u ->
        (OAuthConfig.verifyCallback p prof newId now db).1 = inr u)
    /\ (User.findByEmail e db' = User.findByEmail e db ->
        (OAuthConfig.verifyCallback p prof newId now db').1
        = (OAuthConfig.verifyCallback p prof newId now db).1).
Proof.
  intros p prof newId now db db' e He. split.
  - intros u Hu. now rewrite (verifyCallback_found p prof newId now db e u He Hu).
  - intros Hsame. destruct (User.findByEmail e db) as [u|] eqn:Hu.
    + rewrite (verifyCallback_found p prof newId now db e u He Hu).
      now rewrite (verifyCallback_found p prof newId now db' e u He Hsame).
    + rewrite (verifyCallback_not_found p prof newId now db e He Hu).
      now rewrite (verifyCallback_not_found p prof newId now db' e He Hsame).
Qed.

(** Google reports Erin's identity under Bob's address, on the table with
    Erin and on the table without her. *)
Lemma callback_resolves_by_email_alone_witness :
  (OAuthConfig.verifyCallback OAuthConfig.google Sample.googleAsBob "u-new" 2000
     Sample.db2).1 = inr Sample.bob
  /\ (OAuthConfig.verifyCallback OAuthConfig.google Sample.googleAsBob "u-new" 2000
        [Sample.bob; Sample.carol]).1
     = (OAuthConfig.verifyCallback OAuthConfig.google Sample.googleAsBob "u-new" 2000
          Sample.db2).1.
Proof.
  destruct (callback_resolves_by_email_alone OAuthConfig.google Sample.googleAsBob
              "u-new" 2000 Sample.db2 [Sample.bob; Sample.carol] "bob@example.com")
    as [Hfound Hsame].
  - reflexivity.
  - split.
    + apply Hfound. reflexivity.
    + apply Hsame. reflexivity.
Defined.

(** C7.  On the table of the repository the claim fails for a first
    sign-in.  Dave's address is not in the table, so the callback goes on to
    create his account with no password hash; the column [password_hash] is
    NOT NULL, the INSERT is refused, and the callback ends in
    [done(error, false)].  The second callback meets the same table and
    ends the same way: neither resolves a user. *)
Theorem callback_first_sign_in_refused :
  User.findByEmail "dave@example.com" Sample.db2 = None
  /\ OAuthConfig.verifyCallback OAuthConfig.github Sample.githubNew "u-dave" 2000 Sample.db2
     = (inl (OAuthConfig.Raised (User.NotNullViolation "password_hash")), Sample.db2)
  /\ OAuthConfig.verifyCallback OAuthConfig.github Sample.githubNew "u-other" 2500
       (OAuthConfig.verifyCallback OAuthConfig.github Sample.githubNew "u-dave" 2000
          Sample.db2).2
     = (inl (OAuthConfig.Raised (User.NotNullViolation "password_hash")), Sample.db2).
Proof. split; [reflexivity|]. split; reflexivity. Qed.

(** ** Password login *)

Section LoginFacts.

Variable bcrypt_compare : string -> string -> bool.
Variable JWT_SECRET : option string.

Implicit Types (db : User.table) (u : User.UserData).

Lemma login_unknown_email email pw now db :
  User.findByEmail email db = None ->
  AuthRoutes.login bcrypt_compare JWT_SECRET email pw now db
  = ({| Http.status := 401; Http.body := Http.ErrorBody "Invalid credentials" |}, db).
Proof. intros H. unfold AuthRoutes.login. now rewrite H. Qed.

(** Whatever the row found holds, the test [!user.passwordHash] succeeds. *)
Lemma login_known_email email pw now db u :
  User.findByEmail email db = Some u ->
  AuthRoutes.login bcrypt_compare JWT_SECRET email pw now db
  = ({| Http.status := 401; Http.body := Http.ErrorBody
          "This account uses OAuth login. Please use Google, GitHub, or Microsoft to sign in." |}, db).
Proof.
  intros H. unfold AuthRoutes.login. rewrite H.
  now rewrite propString_passwordHash.
Qed.

Lemma login_table email pw now db :
  (AuthRoutes.login bcrypt_compare JWT_SECRET email pw now db).2 = db.
Proof.
  destruct (User.findByEmail email db) as [u|] eqn:Hu.
  - now rewrite (login_known_email email pw now db u Hu).
  - now rewrite login_unknown_email.
Qed.

End LoginFacts.

(** C8, as stated, fails twice.  Carol has a password, no provider and a
    picture already set; GitHub reports her address with another avatar.
    The link replaces the picture that was set; and a login with her
    password is answered 401 afterwards. *)
Lemma callback_link_overwrites_picture_counterexample :
  User.findByEmail "carol@example.com" Sample.db2 = Some Sample.carol
  /\ User.oauthProvider Sample.carol = None
  /\ User.picture Sample.carol = Some "https://img.example.com/carol-old.png"
  /\ option_map User.picture
       (User.findByEmail "carol@example.com"
          (OAuthConfig.verifyCallback OAuthConfig.github Sample.githubCarol
             "u-new" 2000 Sample.db2).2)
     = Some (Some "https://img.example.com/carol-new.png")
  /\ Sample.toy_compare "s3cret" "$2a$12$:s3cret" = true
  /\ Http.status
       (AuthRoutes.login Sample.toy_compare None "carol@example.com" "s3cret" 3000
          (OAuthConfig.verifyCallback OAuthConfig.github Sample.githubCarol
             "u-new" 2000 Sample.db2).2).1
     = 401.
Proof.
  split; [reflexivity|]. split; [reflexivity|]. split; [reflexivity|].
  split; [reflexivity|]. split; reflexivity.
Qed.

(** C8, amended.  When the profile's email finds a user with no provider
    set, the callback hands back that user and writes onto that same row
    the provider, the external id and, whenever the profile supplies a
    picture, that picture (replacing one already set; the old picture is
    kept otherwise).  The password hash of the row, and of every other
    row, is not touched, and no row is added. *)
Theorem callback_links_existing_account :
  forall (p : OAuthConfig.Provider) (prof : OAuthConfig.Profile)
         (newId : string) (now : Z) (db : User.table) (e : string) (u : User.UserData),
    JS.or_null (OAuthConfig.emails0 prof) = Some e ->
    User.findByEmail e db = Some u ->
    User.oauthProvider u = None ->
    exists u' : User.UserData,
      (OAuthConfig.verifyCallback p prof newId now db).1 = inr u
      /\ User.findByEmail e (OAuthConfig.verifyCallback p prof newId now db).2 = Some u'
      /\ User.id u' = User.id u
      /\ User.oauthProvider u' = Some (OAuthConfig.providerName p)
      /\ User.oauthId u' = Some (OAuthConfig.profile_id prof)
      /\ User.picture u'
         = match JS.or_null (OAuthConfig.photos0 prof) with
           | Some pic => Some pic
           | None => User.picture u
           end
      /\ User.passwordHash u' = User.passwordHash u
      /\ List.map User.id (OAuthConfig.verifyCallback p prof newId now db).2
         = List.map User.id db
      /\ List.map User.passwordHash (OAuthConfig.verifyCallback p prof newId now db).2
         = List.map User.passwordHash db.
Proof.
  intros p prof newId now db e u He Hu _.
  rewrite (verifyCallback_found p prof newId now db e u He Hu). cbn [fst snd].
  exists (User.setOAuth (Some (OAuthConfig.providerName p))
            (Some (OAuthConfig.profile_id prof))
            (JS.or_null (OAuthConfig.photos0 prof)) now u).
  split; [done|]. split.
  - rewrite findByEmail_updateOAuthInfo, Hu. cbn. unfold User.relinked.
    now rewrite String.eqb_refl.
  - split; [done|]. split; [done|]. split; [done|]. split.
    + cbn. now destruct (JS.or_null (OAuthConfig.photos0 prof)).
    + split; [done|]. split; [apply updateOAuthInfo_ids|].
      apply updateOAuthInfo_passwordHashes.
Qed.

(** Bob, a password account with no picture, signs in with Google. *)
Lemma callback_links_existing_account_witness :
  exists u' : User.UserData,
    User.findByEmail "bob@example.com"
      (OAuthConfig.verifyCallback OAuthConfig.google Sample.googleAsBob "u-new" 2000 Sample.db2).2
    = Some u'
    /\ User.oauthProvider u' = Some "google"
    /\ User.oauthId u' = Some "g-1001"
    /\ User.picture u' = None
    /\ User.passwordHash u' = Some "$2a$12$:pw123".
Proof.
  destruct (callback_links_existing_account OAuthConfig.google
              Sample.googleAsBob "u-new" 2000 Sample.db2 "bob@example.com" Sample.bob)
    as (u' & _ & Hf & _ & Hp & Ho & Hpic & Hh & _ & _).
  - reflexivity.
  - reflexivity.
  - reflexivity.
  - exists u'. split; [exact Hf|]. split; [exact Hp|]. split; [exact Ho|].
    split; [exact Hpic | exact Hh].
Defined.



(** ** Uniqueness of the external identity *)

Section UniquenessFacts.

Implicit Types (db : User.table) (u v : User.UserData).

Lemma sameIdentity_sym u v : Invariant.sameIdentity u v -> Invariant.sameIdentity v u.
Proof. intros (p & o & ? & ? & ? & ?). exists p, o. auto. Qed.

Lemma oauthMatches_true provider oid u :
  User.oauthProvider u = Some provider -> User.oauthId u = Some oid ->
  User.oauthMatches provider oid u = true.
Proof.
  intros Hp Ho. unfold User.oauthMatches. rewrite Hp, Ho.
  now rewrite !String.eqb_refl.
Qed.

Lemma findByOAuthId_finds provider oid db v :
  In v db -> User.oauthProvider v = Some provider -> User.oauthId v = Some oid ->
  exists w, User.findByOAuthId provider oid db = Some w.
Proof.
  intros Hin Hp Ho. unfold User.findByOAuthId.
  destruct (List.find _ db) as [w|] eqn:Hf; [eauto|].
  pose proof (List.find_none _ _ Hf v Hin) as Hn.
  now rewrite (oauthMatches_true _ _ _ Hp Ho) in Hn.
Qed.

(** Rows other than the target's are not written by [updateOAuthInfo]. *)
Lemma in_updateOAuthInfo userId pr oid pic now db u' :
  In u' (User.updateOAuthInfo userId pr oid pic now db) ->
  exists u, In u db /\ u' = User.relinked userId pr oid pic now u.
Proof.
  rewrite updateOAuthInfo_map. intros H. apply List.in_map_iff in H as (u & <- & Hin).
  eauto.
Qed.

(** Writing a pair onto the rows of [userId] keeps the pair unique when
    the lookup by that pair finds nobody or finds [userId]: the guard of
    [linkOAuthAccount]. *)
Lemma updateOAuthInfo_link_unique userId provider oid pic now db :
  Invariant.oauthUnique db ->
  (forall w, User.findByOAuthId provider oid db = Some w -> User.id w = userId) ->
  Invariant.oauthUnique
    (User.updateOAuthInfo userId (Some provider) (Some oid) pic now db).
Proof.
  intros Huniq Hguard.
  assert (Hother : forall x y, In x db -> In y db ->
            String.eqb (User.id x) userId = true ->
            String.eqb (User.id y) userId = false ->
            ~ Invariant.sameIdentity
                (User.setOAuth (Some provider) (Some oid) pic now x) y).
  { intros x y _ Hy Hx Hny (p & o & Hp & Ho & Hp' & Ho'). cbn in Hp, Ho.
    injection Hp as <-. injection Ho as <-.
    destruct (findByOAuthId_finds _ _ _ _ Hy Hp' Ho') as [w Hw].
    pose proof (Hguard w Hw) as Hid.
    apply findByOAuthId_matches in Hw as (Hwin & Hwp & Hwo).
    assert (User.id w = User.id y) as Heq
      by (apply Huniq; auto; exists provider, oid; auto).
    apply String.eqb_neq in Hny. congruence. }
  intros u' v' Hu' Hv' Hsame.
  apply in_updateOAuthInfo in Hu' as (u & Hu & ->).
  apply in_updateOAuthInfo in Hv' as (v & Hv & ->).
  rewrite !relinked_id. unfold User.relinked in Hsame.
  destruct (String.eqb (User.id u) userId) eqn:Eu;
    destruct (String.eqb (User.id v) userId) eqn:Ev.
  - apply String.eqb_eq in Eu. apply String.eqb_eq in Ev. congruence.
  - exfalso. exact (Hother u v Hu Hv Eu Ev Hsame).
  - exfalso. apply sameIdentity_sym in Hsame. exact (Hother v u Hv Hu Ev Eu Hsame).
  - now apply Huniq.
Qed.

(** Clearing the pair on the rows of [userId] keeps the pair unique. *)
Lemma updateOAuthInfo_unlink_unique userId pic now db :
  Invariant.oauthUnique db ->
  Invariant.oauthUnique (User.updateOAuthInfo userId None None pic now db).
Proof.
  intros Huniq u' v' Hu' Hv' Hsame.
  apply in_updateOAuthInfo in Hu' as (u & Hu & ->).
  apply in_updateOAuthInfo in Hv' as (v & Hv & ->).
  rewrite !relinked_id. unfold User.relinked in Hsame.
  destruct (String.eqb (User.id u) userId);
    [destruct Hsame as (p & o & Hp & _); discriminate|].
  destruct (String.eqb (User.id v) userId);
    [destruct Hsame as (p & o & _ & _ & Hp & _); discriminate|].
  now apply Huniq.
Qed.

End UniquenessFacts.

Section UniquenessOfRoutes.

Variable bcrypt_hash : string -> string -> string.
Variable JWT_SECRET : option string.

Implicit Types (db : User.table).

(** What the link route writes when it answers 200: the pair, onto the
    rows of [userId], under the guard of [linkOAuthAccount]. *)
Lemma link_table provider userId oauthId now db :
  (OAuthRoutes.link provider userId oauthId now db).2 = db
  \/ (OAuthRoutes.knownProvider provider = true
      /\ (forall w, User.findByOAuthId provider oauthId db = Some w -> User.id w = userId)
      /\ (OAuthRoutes.link provider userId oauthId now db).2
         = User.updateOAuthInfo userId (Some provider) (Some oauthId) None now db).
Proof.
  unfold OAuthRoutes.link, User.linkOAuthAccount.
  destruct (OAuthRoutes.knownProvider provider); [|now left]. cbn [negb].
  destruct (User.findById userId db); [|now left].
  destruct (User.findByOAuthId provider oauthId db) as [w|].
  - destruct (String.eqb (User.id w) userId) eqn:E; cbn; [|now left].
    right. split; [done|]. split; [|done].
    intros w' [= <-]. now apply String.eqb_eq.
  - right. split; [done|]. split; [|done]. discriminate.
Qed.

(** What the unlink route writes when it answers 200. *)
Lemma unlink_table provider userId now db :
  (OAuthRoutes.unlink provider userId now db).2 = db
  \/ (OAuthRoutes.unlink provider userId now db).2
     = User.updateOAuthInfo userId None None None now db.
Proof.
  unfold OAuthRoutes.unlink.
  destruct (negb _); [now left|].
  destruct (User.findById userId db); [now right|now left].
Qed.

(** What register writes when it answers 201: one more row, under a key
    and an address that were free, with a password hash and no provider. *)
Lemma register_table email password name role salt newId now db :
  (AuthRoutes.register bcrypt_hash JWT_SECRET email password name role salt newId now db).2 = db
  \/ exists row,
       (AuthRoutes.register bcrypt_hash JWT_SECRET email password name role salt newId now db).2
       = (db ++ [row])%list
       /\ User.id row = newId /\ User.email row = email
       /\ is_Some (User.passwordHash row)
       /\ User.oauthProvider row = None
       /\ ~ In newId (List.map User.id db)
       /\ ~ In email (List.map User.email db).
Proof.
  unfold AuthRoutes.register.
  destruct (User.findByEmail email db); [now left|].
  destruct (User.create _ _ _ _) as [err|[row db']] eqn:Hc; [now left|].
  apply create_inr in Hc
    as (-> & Hid & Hemail & _ & Hpw & Hprov & _ & _ & _ & Hfresh & Hfree).
  right. exists row. cbn in *. done.
Qed.

Lemma link_preserves_unique provider userId oauthId now db :
  Invariant.oauthUnique db ->
  Invariant.oauthUnique (OAuthRoutes.link provider userId oauthId now db).2.
Proof.
  intros Huniq.
  destruct (link_table provider userId oauthId now db) as [->|(_ & Hguard & ->)]; [done|].
  now apply updateOAuthInfo_link_unique.
Qed.

Lemma unlink_preserves_unique provider userId now db :
  Invariant.oauthUnique db ->
  Invariant.oauthUnique (OAuthRoutes.unlink provider userId now db).2.
Proof.
  intros Huniq.
  destruct (unlink_table provider userId now db) as [->| ->]; [done|].
  now apply updateOAuthInfo_unlink_unique.
Qed.

Lemma register_preserves_unique email password name role salt newId now db :
  Invariant.oauthUnique db ->
  Invariant.oauthUnique
    (AuthRoutes.register bcrypt_hash JWT_SECRET email password name role salt newId now db).2.
Proof.
  intros Huniq.
  destruct (register_table email password name role salt newId now db)
    as [->|(row & -> & _ & _ & _ & Hnone & _)]; [done|].
  intros u v Hu Hv Hsame.
  apply List.in_app_iff in Hu as [Hu|[<-|[]]];
    [|destruct Hsame as (p & o & Hp & _); congruence].
  apply List.in_app_iff in Hv as [Hv|[<-|[]]];
    [|destruct Hsame as (p & o & _ & _ & Hp & _); congruence].
  now apply Huniq.
Qed.

End UniquenessOfRoutes.

(** C2 at the failing input.  In the table [alice; bob] only Alice carries
    a pair, so the pair is unique.  After the Google callback for the
    profile that reports (google, g-1001) under Bob's address, Alice and Bob
    both carry (google, g-1001): the callback writes the pair without the
    lookup by which [linkOAuthAccount] refuses a pair owned by another id. *)
Theorem callback_breaks_identity_uniqueness :
  Invariant.oauthUnique Sample.db0
  /\ (exists u v : User.UserData,
        In u (OAuthConfig.verifyCallback OAuthConfig.google Sample.googleAsBob
                "u-new" 2000 Sample.db0).2
        /\ In v (OAuthConfig.verifyCallback OAuthConfig.google Sample.googleAsBob
                   "u-new" 2000 Sample.db0).2
        /\ Invariant.sameIdentity u v
        /\ User.id u <> User.id v)
  /\ ~ Invariant.oauthUnique
         (OAuthConfig.verifyCallback OAuthConfig.google Sample.googleAsBob
            "u-new" 2000 Sample.db0).2
  /\ (OAuthRoutes.link "google" "u-bob" "g-1001" 2000 Sample.db0).1
     = {| Http.status := 409;
          Http.body := Http.ErrorBody "OAuth account already linked to another user" |}.
Proof.
  assert (Hdup : exists u v : User.UserData,
        In u (OAuthConfig.verifyCallback OAuthConfig.google Sample.googleAsBob
                "u-new" 2000 Sample.db0).2
        /\ In v (OAuthConfig.verifyCallback OAuthConfig.google Sample.googleAsBob
                   "u-new" 2000 Sample.db0).2
        /\ Invariant.sameIdentity u v
        /\ User.id u <> User.id v).
  { exists Sample.alice,
      (User.setOAuth (Some "google") (Some "g-1001") None 2000 Sample.bob).
    split; [now left|]. split; [right; now left|].
    split; [|discriminate]. exists "google", "g-1001". now cbn. }
  split; [|split; [exact Hdup|split; [|reflexivity]]].
  - intros u v Hu Hv (p & o & Hp & _ & Hp' & _).
    destruct Hu as [<-|[<-|[]]]; [|discriminate].
    destruct Hv as [<-|[<-|[]]]; [done|discriminate].
  - intros Huniq. destruct Hdup as (u & v & Hu & Hv & Hsame & Hne).
    apply Hne. now apply Huniq.
Qed.

(** ** A credential on every account *)

Section CredentialFacts.

Implicit Types (db : User.table) (u : User.UserData).










(** Writing a provider onto rows keeps a credential on every row; clearing
    it does when the rows it is cleared on have a password hash. *)
Lemma credentialInv_link userId provider oid pic now db :
  Invariant.credentialInv db ->
  Invariant.credentialInv (User.updateOAuthInfo userId (Some provider) oid pic now db).
Proof.
  intros Hdb u' Hu'. apply in_updateOAuthInfo in Hu' as (u & Hu & ->).
  unfold User.relinked. destruct (String.eqb (User.id u) userId); [|now apply Hdb].
  right. by eexists.
Qed.

Lemma credentialInv_unlink userId pic now db :
  (forall u, In u db -> User.id u = userId -> is_Some (User.passwordHash u)) ->
  Invariant.credentialInv db ->
  Invariant.credentialInv (User.updateOAuthInfo userId None None pic now db).
Proof.
  intros Hpw Hdb u' Hu'. apply in_updateOAuthInfo in Hu' as (u & Hu & ->).
  unfold User.relinked. destruct (String.eqb (User.id u) userId) eqn:E; [|now apply Hdb].
  apply String.eqb_eq in E. left. cbn. now apply Hpw.
Qed.

Lemma credentialInv_updatePreferences userId prefs now db :
  Invariant.credentialInv db ->
  Invariant.credentialInv (User.updatePreferences userId prefs now db).
Proof.
  intros Hdb u' Hu'. unfold User.updatePreferences in Hu'.
  apply List.in_map_iff in Hu' as (u & <- & Hu).
  destruct (String.eqb (User.id u) userId); [|now apply Hdb].
  destruct (Hdb u Hu) as [H|H]; [left|right]; exact H.
Qed.

End CredentialFacts.



(** X23.  A credential on every account, operation by operation.  On any
    table in which every row has a password hash or a provider, register,
    login, the profile update, the verify callbacks and link leave such a
    table; unlink leaves such a table whenever the rows of the user it is
    applied to have a password hash. *)
Theorem credential_kept_by_each_operation :
  forall (bcrypt_hash : string -> string -> string)
         (bcrypt_compare : string -> string -> bool)
         (JWT_SECRET : option string) (db : User.table),
    Invariant.credentialInv db ->
    (forall email password name role salt newId now,
        Invariant.credentialInv
          (AuthRoutes.register bcrypt_hash JWT_SECRET email password name role
             salt newId now db).2)
    /\ (forall email password now,
          Invariant.credentialInv
            (AuthRoutes.login bcrypt_compare JWT_SECRET email password now db).2)
    /\ (forall bearer preferences now,
          Invariant.credentialInv
            (AuthRoutes.updateProfile JWT_SECRET bearer preferences now db).2)
    /\ (forall p prof newId now,
          Invariant.credentialInv (OAuthConfig.verifyCallback p prof newId now db).2)
    /\ (forall provider userId oauthId now,
          Invariant.credentialInv (OAuthRoutes.link provider userId oauthId now db).2)
    /\ (forall provider userId now,
          (forall u, In u db -> User.id u = userId -> is_Some (User.passwordHash u)) ->
          Invariant.credentialInv (OAuthRoutes.unlink provider userId now db).2).
Proof.
  intros hash cmp sec db Hdb.
  split; [|split; [|split; [|split; [|split]]]].
  - intros email pw name role salt newId now.
    destruct (register_table hash sec email pw name role salt newId now db)
      as [->|(row & -> & _ & _ & Hpw & _)]; [done|].
    intros u Hu. apply List.in_app_iff in Hu as [Hu|[<-|[]]]; [now apply Hdb|now left].
  - intros. now rewrite login_table.
  - intros bearer prefs now. unfold AuthRoutes.updateProfile.
    destruct (Middleware.authenticateToken sec bearer now db); [done|].
    destruct prefs; [|done]. now apply credentialInv_updatePreferences.
  - intros p prof newId now.
    destruct (JS.or_null (OAuthConfig.emails0 prof)) as [e|] eqn:He.
    + destruct (User.findByEmail e db) as [u|] eqn:Hu.
      * rewrite (verifyCallback_found p prof newId now db e u He Hu).
        now apply credentialInv_link.
      * now rewrite (verifyCallback_not_found p prof newId now db e He Hu).
    + now rewrite verifyCallback_no_email.
  - intros provider userId oauthId now.
    destruct (link_table provider userId oauthId now db) as [->|(_ & _ & ->)]; [done|].
    now apply credentialInv_link.
  - intros provider userId now Hpw.
    destruct (unlink_table provider userId now db) as [->| ->]; [done|].
    now apply credentialInv_unlink.
Qed.

(** Erin's Google link is removed on the sample table. *)
Lemma credential_kept_by_each_operation_witness :
  Invariant.credentialInv (OAuthRoutes.unlink "google" "u-erin" 2000 Sample.db2).2.
Proof.
  destruct (credential_kept_by_each_operation Sample.toy_hash Sample.toy_compare None
              Sample.db2) as (_ & _ & _ & _ & _ & Hunlink).
  - intros u [<-|[<-|[<-|[]]]]; left; by eexists.
  - apply Hunlink. intros u [<-|[<-|[<-|[]]]] _; by eexists.
Defined.

(** ** Session tokens: refresh and the authentication middleware *)

Section TokenFacts.

Variable JWT_SECRET : option string.

Implicit Types (t : Jwt.Token) (db : User.table).

Lemma verify_expired key p iat exp now :
  exp <= now ->
  Jwt.verify (Jwt.Signed key p iat exp) key now = inl Jwt.TokenExpiredError.
Proof.
  intros H. unfold Jwt.verify. rewrite String.eqb_refl. cbn.
  apply Z.leb_le in H. now rewrite H.
Qed.

Lemma verify_bad_signature key secret p iat exp now :
  key <> secret ->
  Jwt.verify (Jwt.Signed key p iat exp) secret now = inl Jwt.JsonWebTokenError.
Proof.
  intros H. unfold Jwt.verify. apply String.eqb_neq in H. now rewrite H.
Qed.

(** A token verifies exactly when it is signed under the secret and its
    expiry is ahead of the clock. *)
Lemma verify_ok_iff t secret now p :
  Jwt.verify t secret now = inr p <->
  exists iat exp, t = Jwt.Signed secret p iat exp /\ now < exp.
Proof.
  split.
  - destruct t as [raw|key q iat exp]; [discriminate|]. cbn.
    destruct (String.eqb key secret) eqn:Ek; [|discriminate]. cbn.
    destruct (exp <=? now) eqn:Ex; [discriminate|]. intros [= ->].
    apply String.eqb_eq in Ek. subst key. apply Z.leb_gt in Ex. eauto.
  - intros (iat & exp & -> & Hlt). cbn. rewrite String.eqb_refl. cbn.
    apply Z.leb_gt in Hlt. now rewrite Hlt.
Qed.

Lemma sign_verifies p secret now now' :
  now' < now + Jwt.expiresIn ->
  Jwt.verify (Jwt.sign p secret now) secret now' = inr p.
Proof. intros H. apply verify_ok_iff. unfold Jwt.sign. eauto. Qed.

Lemma refresh_unverified t now db c :
  Jwt.falsy (Some t) = false ->
  Jwt.verify t (Jwt.secretOf JWT_SECRET) now = inl c ->
  AuthRoutes.refresh JWT_SECRET (Some t) now db
  = {| Http.status := 401; Http.body := Http.ErrorBody "Invalid token" |}.
Proof. intros Hf Hv. unfold AuthRoutes.refresh. now rewrite Hf, Hv. Qed.

Lemma refresh_verified t now db decoded :
  Jwt.falsy (Some t) = false ->
  Jwt.verify t (Jwt.secretOf JWT_SECRET) now = inr decoded ->
  AuthRoutes.refresh JWT_SECRET (Some t) now db
  = match User.findById (Jwt.userId decoded) db with
    | None => {| Http.status := 401; Http.body := Http.ErrorBody "Invalid token" |}
    | Some user =>
        {| Http.status := 200;
           Http.body := Http.TokenBody
             (Jwt.sign (Http.payloadOf user) (Jwt.secretOf JWT_SECRET) now) |}
    end.
Proof. intros Hf Hv. unfold AuthRoutes.refresh. now rewrite Hf, Hv. Qed.

(** The [catch] block answers every error of [jwt.verify] alike: the
    first test, [instanceof JsonWebTokenError], holds for the subclasses
    too. *)
Lemma onVerifyError_always_invalid c :
  Middleware.onVerifyError c
  = {| Http.status := 401; Http.body := Http.ErrorBody "Invalid token" |}.
Proof. now destruct c. Qed.

Lemma authenticateToken_expired p iat exp now db :
  exp <= now ->
  Middleware.authenticateToken JWT_SECRET
    (Some (Jwt.Signed (Jwt.secretOf JWT_SECRET) p iat exp)) now db
  = Middleware.Respond
      {| Http.status := 401; Http.body := Http.ErrorBody "Invalid token" |}.
Proof.
  intros H. unfold Middleware.authenticateToken. cbn [Jwt.falsy].
  now rewrite (verify_expired _ p iat exp now H).
Qed.

End TokenFacts.

(** C6, as stated, fails on the claims carried over.  Bob's stored role is
    [user]; a well-signed, unexpired token for Bob carries the role [admin].
    Refresh succeeds and the new token carries the stored role, not the
    role of the old token. *)
Lemma refresh_reads_claims_from_table_counterexample :
  Jwt.verify Sample.staleToken (Jwt.secretOf None) 4000
  = inr {| Jwt.userId := "u-bob"; Jwt.email := "bob@example.com"; Jwt.role := "admin" |}
  /\ AuthRoutes.refresh None (Some Sample.staleToken) 4000 Sample.db0
     = {| Http.status := 200;
          Http.body := Http.TokenBody
            (Jwt.Signed "fallback-secret"
               {| Jwt.userId := "u-bob"; Jwt.email := "bob@example.com"; Jwt.role := "user" |}
               4000 90400) |}
  /\ AuthRoutes.refresh None (Some Sample.staleToken) 4000 Sample.db0
     <> {| Http.status := 200;
           Http.body := Http.TokenBody
             (Jwt.Signed "fallback-secret"
                {| Jwt.userId := "u-bob"; Jwt.email := "bob@example.com"; Jwt.role := "admin" |}
                4000 90400) |}.
Proof. repeat split. discriminate. Qed.

(** C6, amended.  For a token present in the request: refresh answers 200
    only if the token verifies (signed under the secret, expiry ahead of
    the clock) and its subject is a stored user; a token that does not
    verify, an expired one included, is answered 401 ["Invalid token"]; on
    success the new token carries the same subject together with the email
    and the role stored for that user, signed under the same secret, issued
    now and expiring 24 hours from now. *)
Theorem refresh_reissues_from_stored_user :
  forall (JWT_SECRET : option string) (t : Jwt.Token) (now : Z) (db : User.table),
    Jwt.falsy (Some t) = false ->
    (forall c, Jwt.verify t (Jwt.secretOf JWT_SECRET) now = inl c ->
       AuthRoutes.refresh JWT_SECRET (Some t) now db
       = {| Http.status := 401; Http.body := Http.ErrorBody "Invalid token" |})
    /\ (forall p iat exp, t = Jwt.Signed (Jwt.secretOf JWT_SECRET) p iat exp -> exp <= now ->
          AuthRoutes.refresh JWT_SECRET (Some t) now db
          = {| Http.status := 401; Http.body := Http.ErrorBody "Invalid token" |})
    /\ (Http.status (AuthRoutes.refresh JWT_SECRET (Some t) now db) = 200 ->
          exists decoded user,
            Jwt.verify t (Jwt.secretOf JWT_SECRET) now = inr decoded
            /\ User.findById (Jwt.userId decoded) db = Some user
            /\ AuthRoutes.refresh JWT_SECRET (Some t) now db
               = {| Http.status := 200;
                    Http.body := Http.TokenBody
                      (Jwt.Signed (Jwt.secretOf JWT_SECRET)
                         {| Jwt.userId := Jwt.userId decoded;
                            Jwt.email := User.email user;
                            Jwt.role := User.role user |}
                         now (now + 24 * 60 * 60)) |})
    /\ (forall decoded user,
          Jwt.verify t (Jwt.secretOf JWT_SECRET) now = inr decoded ->
          User.findById (Jwt.userId decoded) db = Some user ->
          Http.status (AuthRoutes.refresh JWT_SECRET (Some t) now db) = 200).
Proof.
  intros sec t now db Hf. repeat split.
  - intros c Hv. now apply refresh_unverified with (c := c).
  - intros p iat exp -> Hx.
    apply refresh_unverified with (c := Jwt.TokenExpiredError); [done|].
    now apply verify_expired.
  - intros H200.
    destruct (Jwt.verify t (Jwt.secretOf sec) now) as [c|decoded] eqn:Hv.
    + rewrite (refresh_unverified sec t now db c Hf Hv) in H200. discriminate.
    + rewrite (refresh_verified sec t now db decoded Hf Hv) in *.
      destruct (User.findById (Jwt.userId decoded) db) as [user|] eqn:Hu; [|discriminate].
      exists decoded, user. split; [done|]. split; [done|].
      unfold Jwt.sign, Http.payloadOf, Jwt.expiresIn.
      now rewrite (findById_id _ _ _ Hu).
  - intros decoded user Hv Hu.
    now rewrite (refresh_verified sec t now db decoded Hf Hv), Hu.
Qed.

(** Bob's token is refreshed before its expiry and refused at its expiry. *)
Lemma refresh_reissues_from_stored_user_witness :
  Http.status (AuthRoutes.refresh None (Some Sample.staleToken) 4000 Sample.db0) = 200
  /\ AuthRoutes.refresh None (Some Sample.staleToken) 90000 Sample.db0
     = {| Http.status := 401; Http.body := Http.ErrorBody "Invalid token" |}.
Proof.
  destruct (refresh_reissues_from_stored_user None Sample.staleToken 4000 Sample.db0)
    as (_ & _ & _ & Hok); [reflexivity|].
  destruct (refresh_reissues_from_stored_user None Sample.staleToken 90000 Sample.db0)
    as (_ & Hexp & _); [reflexivity|].
  split.
  - apply (Hok {| Jwt.userId := "u-bob"; Jwt.email := "bob@example.com"; Jwt.role := "admin" |}
             Sample.bob); reflexivity.
  - apply (Hexp {| Jwt.userId := "u-bob"; Jwt.email := "bob@example.com"; Jwt.role := "admin" |}
             3600 90000); [reflexivity|lia].
Defined.

(** C3 at the failing input.  A token for Bob signed under the secret and
    past its expiry: [jwt.verify] throws [TokenExpiredError], and
    [authenticateToken] answers 401 ["Invalid token"], the answer it gives
    a forged token, because its first test, [instanceof JsonWebTokenError],
    holds for the subclass.  The error handler, which compares [err.name],
    answers ["Token expired"] for the same error. *)
Theorem authenticateToken_reports_expired_as_invalid :
  Jwt.verify Sample.staleToken (Jwt.secretOf None) 90000 = inl Jwt.TokenExpiredError
  /\ Middleware.authenticateToken None (Some Sample.staleToken) 90000 Sample.db0
     = Middleware.Respond
         {| Http.status := 401; Http.body := Http.ErrorBody "Invalid token" |}
  /\ Middleware.authenticateToken None
       (Some (Jwt.Signed "forged-key"
                {| Jwt.userId := "u-bob"; Jwt.email := "bob@example.com"; Jwt.role := "admin" |}
                3600 90000)) 4000 Sample.db0
     = Middleware.Respond
         {| Http.status := 401; Http.body := Http.ErrorBody "Invalid token" |}
  /\ Middleware.errorHandler (Jwt.className Jwt.TokenExpiredError) "jwt expired"
     = {| Http.status := 401; Http.body := Http.ErrorBody "Token expired" |}
  /\ (forall c, Middleware.onVerifyError c
                <> {| Http.status := 401; Http.body := Http.ErrorBody "Token expired" |}).
Proof.
  repeat split. intros c. rewrite onVerifyError_always_invalid. discriminate.
Qed.

(** ** Further properties of the routes *)

(** X1.  The link route, the unlink route and register keep the
    (oauthProvider, oauthId) pair unique across users. *)
Theorem identity_uniqueness_kept_by_routes :
  forall (bcrypt_hash : string -> string -> string) (JWT_SECRET : option string)
         (db : User.table),
    Invariant.oauthUnique db ->
    (forall provider userId oauthId now,
        Invariant.oauthUnique (OAuthRoutes.link provider userId oauthId now db).2)
    /\ (forall provider userId now,
          Invariant.oauthUnique (OAuthRoutes.unlink provider userId now db).2)
    /\ (forall email password name role salt newId now,
          Invariant.oauthUnique
            (AuthRoutes.register bcrypt_hash JWT_SECRET email password name role
               salt newId now db).2).
Proof.
  intros hash sec db Huniq. repeat split; intros.
  - now apply link_preserves_unique.
  - now apply unlink_preserves_unique.
  - now apply register_preserves_unique.
Qed.

(** Bob links the GitHub identity 42. *)
Lemma identity_uniqueness_kept_by_routes_witness :
  Invariant.oauthUnique (OAuthRoutes.link "github" "u-bob" "42" 2000 Sample.db0).2.
Proof.
  destruct (identity_uniqueness_kept_by_routes Sample.toy_hash None Sample.db0)
    as (Hlink & _).
  - intros u v Hu Hv (p & o & Hp & _ & Hp' & _).
    destruct Hu as [<-|[<-|[]]]; [|discriminate].
    destruct Hv as [<-|[<-|[]]]; [reflexivity|discriminate].
  - apply Hlink.
Defined.

(** X3.  Register with an email that is already in the table, whether the
    account has a password or is OAuth-only, is answered 400
    ["User already exists"] and writes nothing. *)
Theorem register_existing_email_rejected :
  forall (bcrypt_hash : string -> string -> string) (JWT_SECRET : option string)
         (email password name : string) (role : option string) (salt newId : string)
         (now : Z) (db : User.table) (u : User.UserData),
    User.findByEmail email db = Some u ->
    AuthRoutes.register bcrypt_hash JWT_SECRET email password name role salt newId now db
    = ({| Http.status := 400; Http.body := Http.ErrorBody "User already exists" |}, db).
Proof.
  intros hash sec email password name role salt newId now db u Hu.
  unfold AuthRoutes.register. now rewrite Hu.
Qed.

(** Registration under Alice's address, an OAuth-only account. *)
Lemma register_existing_email_rejected_witness :
  AuthRoutes.register Sample.toy_hash None "alice@example.com" "pw" "Alice" None
    "salt" "u-2" 2000 Sample.db0
  = ({| Http.status := 400; Http.body := Http.ErrorBody "User already exists" |}, Sample.db0).
Proof.
  apply (register_existing_email_rejected Sample.toy_hash None "alice@example.com" "pw"
           "Alice" None "salt" "u-2" 2000 Sample.db0 Sample.alice).
  reflexivity.
Defined.

(** X4.  A challenge handed out by [generatePKCE] verifies once: within
    the ten minutes, a call with the returned key and challenge answers the
    verifier that was drawn and removes the entry; and the sweep made by
    [generatePKCE] leaves no entry that is past its expiry. *)
Theorem generatePKCE_then_verify :
  forall (sha256 : string -> string) (verifier key : string) (now now' : Z)
         (s : Pkce.store),
    now' <= now + 10 * 60 * 1000 ->
    (Pkce.generatePKCE sha256 verifier key now s).1 = (key, sha256 verifier)
    /\ Pkce.verifyPKCE key (sha256 verifier) now'
         (Pkce.generatePKCE sha256 verifier key now s).2
       = (Some verifier, delete key (Pkce.generatePKCE sha256 verifier key now s).2)
    /\ (forall k e, (Pkce.generatePKCE sha256 verifier key now s).2 !! k = Some e ->
          ~ (Pkce.expires e < now)).
Proof.
  intros sha256 verifier key now now' s Hle.
  set (e0 := {| Pkce.challenge := sha256 verifier; Pkce.verifier := verifier;
                Pkce.expires := now + 10 * 60 * 1000 |}).
  assert (Hk : (Pkce.generatePKCE sha256 verifier key now s).2 !! key = Some e0).
  { unfold Pkce.generatePKCE. cbn [snd]. apply map_lookup_filter_Some.
    split; [apply lookup_insert_eq|]. cbn. lia. }
  split; [reflexivity|]. split.
  - apply (verifyPKCE_match key now' _ e0 Hk). cbn. lia.
  - intros k e He. unfold Pkce.generatePKCE in He. cbn [snd] in He.
    apply map_lookup_filter_Some in He as [_ He]. exact He.
Qed.

(** A flow is started on the sample store and its challenge verified within ten minutes. *)
Lemma generatePKCE_then_verify_witness :
  Pkce.verifyPKCE "b7c2" "sha256:v-1" 1700000500000
    (Pkce.generatePKCE (fun v => "sha256:" ++ v) "v-1" "b7c2" 1700000000000 Sample.store1).2
  = (Some "v-1",
     delete "b7c2"
       (Pkce.generatePKCE (fun v => "sha256:" ++ v) "v-1" "b7c2" 1700000000000 Sample.store1).2).
Proof.
  destruct (generatePKCE_then_verify (fun v => "sha256:" ++ v) "v-1" "b7c2"
              1700000000000 1700000500000 Sample.store1) as (_ & Hv & _); [lia|].
  exact Hv.
Defined.

(** ** The guards of middleware/auth.ts *)

Section GuardFacts.

Implicit Types (db : User.table) (u : User.UserData) (bearer : option Jwt.Token).

Lemma existsb_eqb_In (x : string) (l : list string) :
  existsb (String.eqb x) l = true <-> In x l.
Proof.
  rewrite List.existsb_exists. split.
  - intros (y & Hy & E). apply String.eqb_eq in E. now subst.
  - intros H. exists x. split; [done|apply String.eqb_refl].
Qed.

Lemma requireRole_pass_iff roles u :
  Middleware.requireRole roles (Some u) = Middleware.Pass <-> In (User.role u) roles.
Proof.
  unfold Middleware.requireRole. rewrite <- existsb_eqb_In.
  destruct (existsb _ roles); cbn; split; intros H; try done; discriminate.
Qed.

Lemma authenticateToken_verified sec t now db p :
  Jwt.verify t (Jwt.secretOf sec) now = inr p ->
  Middleware.authenticateToken sec (Some t) now db
  = match User.findById (Jwt.userId p) db with
    | Some user => Middleware.Next user
    | None => Middleware.Respond
                {| Http.status := 401; Http.body := Http.ErrorBody "Invalid token" |}
    end.
Proof.
  intros Hv. unfold Middleware.authenticateToken.
  assert (Jwt.falsy (Some t) = false) as ->.
  { destruct t as [raw|]; [discriminate|done]. }
  now rewrite Hv.
Qed.

Lemma authenticateToken_next_inv sec bearer now db u :
  Middleware.authenticateToken sec bearer now db = Middleware.Next u ->
  exists t p, bearer = Some t /\ Jwt.verify t (Jwt.secretOf sec) now = inr p
              /\ User.findById (Jwt.userId p) db = Some u.
Proof.
  unfold Middleware.authenticateToken.
  destruct (Jwt.falsy bearer); [discriminate|].
  destruct bearer as [t|]; [|discriminate].
  destruct (Jwt.verify t (Jwt.secretOf sec) now) as [c|p] eqn:Hv; [discriminate|].
  destruct (User.findById (Jwt.userId p) db) as [v|] eqn:Hf; [|discriminate].
  intros [= ->]. eauto.
Qed.

End GuardFacts.


(** X6.  Admission is decided on the stored role, not on the role claim of
    the token: for a token that verifies, [authenticateToken] hands on the
    row stored under the token's subject (or answers 401 when there is
    none), and [requireRole] / [requireAdmin] behind it pass exactly when
    that row's role is listed / is [admin]. *)
Theorem admission_reads_stored_role :
  forall (JWT_SECRET : option string) (t : Jwt.Token) (now : Z) (db : User.table)
         (p : Jwt.Payload),
    Jwt.verify t (Jwt.secretOf JWT_SECRET) now = inr p ->
    (User.findById (Jwt.userId p) db = None ->
       Middleware.authenticateToken JWT_SECRET (Some t) now db
       = Middleware.Respond
           {| Http.status := 401; Http.body := Http.ErrorBody "Invalid token" |})
    /\ (forall u, User.findById (Jwt.userId p) db = Some u ->
          Middleware.authenticateToken JWT_SECRET (Some t) now db = Middleware.Next u
          /\ (forall roles, Middleware.requireRole roles (Some u) = Middleware.Pass
                            <-> In (User.role u) roles)
          /\ (Middleware.requireAdmin (Some u) = Middleware.Pass <-> User.role u = "admin")
          /\ (User.role u <> "admin" ->
                Middleware.requireAdmin (Some u)
                = Middleware.Deny
                    {| Http.status := 403;
                       Http.body := Http.ErrorBody "Insufficient permissions" |})).
Proof.
  intros sec t now db p Hv. split.
  - intros Hf. now rewrite (authenticateToken_verified sec t now db p Hv), Hf.
  - intros u Hf. split; [now rewrite (authenticateToken_verified sec t now db p Hv), Hf|].
    split; [intros roles; apply requireRole_pass_iff|]. split.
    + unfold Middleware.requireAdmin. rewrite requireRole_pass_iff. cbn. intuition.
    + intros Hne. unfold Middleware.requireAdmin, Middleware.requireRole. cbn.
      apply String.eqb_neq in Hne. now rewrite Hne.
Qed.

(** Bob's token claims [admin]; Bob is stored as [user]. *)
Lemma admission_reads_stored_role_witness :
  Middleware.authenticateToken None (Some Sample.staleToken) 4000 Sample.db0
  = Middleware.Next Sample.bob
  /\ Middleware.requireAdmin (Some Sample.bob)
     = Middleware.Deny
         {| Http.status := 403; Http.body := Http.ErrorBody "Insufficient permissions" |}.
Proof.
  destruct (admission_reads_stored_role None Sample.staleToken 4000 Sample.db0
              {| Jwt.userId := "u-bob"; Jwt.email := "bob@example.com"; Jwt.role := "admin" |})
    as (_ & H); [reflexivity|].
  destruct (H Sample.bob) as (Hnext & _ & _ & Hdeny); [reflexivity|].
  split; [exact Hnext|]. apply Hdeny. discriminate.
Defined.

(** X7.  [canAccessUser] lets a request through exactly when its user is
    an admin or the user whose id is asked for, the id asked for being the
    [userId] parameter when it is non-empty and the [id] parameter
    otherwise; with no user it answers 401, and every other refusal is 403
    ["Access denied"].  With neither parameter only an admin passes. *)
Theorem canAccessUser_owner_or_admin :
  forall (params_userId params_id : option string) (u : User.UserData),
    (Middleware.canAccessUser params_userId params_id (Some u) = Middleware.Pass
     <-> User.role u = "admin"
         \/ Middleware.requestedUserId params_userId params_id = Some (User.id u))
    /\ (Middleware.canAccessUser params_userId params_id (Some u) = Middleware.Pass
        \/ Middleware.canAccessUser params_userId params_id (Some u)
           = Middleware.Deny
               {| Http.status := 403; Http.body := Http.ErrorBody "Access denied" |})
    /\ Middleware.canAccessUser params_userId params_id None
       = Middleware.Deny
           {| Http.status := 401; Http.body := Http.ErrorBody "Authentication required" |}
    /\ (forall x, x <> "" -> Middleware.requestedUserId (Some x) params_id = Some x)
    /\ Middleware.requestedUserId (Some "") params_id = params_id
    /\ Middleware.requestedUserId None params_id = params_id
    /\ (Middleware.canAccessUser None None (Some u) = Middleware.Pass
        <-> User.role u = "admin").
Proof.
  intros uid pid u.
  assert (Hiff : forall a b,
            Middleware.canAccessUser a b (Some u) = Middleware.Pass
            <-> User.role u = "admin"
                \/ Middleware.requestedUserId a b = Some (User.id u)).
  { intros a b. unfold Middleware.canAccessUser.
    destruct (String.eqb (User.role u) "admin") eqn:Er.
    - apply String.eqb_eq in Er. cbn. intuition.
    - apply String.eqb_neq in Er. cbn [negb andb].
      destruct (Middleware.requestedUserId a b) as [r|].
      + destruct (String.eqb (User.id u) r) eqn:Ei; cbn.
        * apply String.eqb_eq in Ei. subst r. intuition.
        * apply String.eqb_neq in Ei. split; [discriminate|].
          intros [H|[= H]]; [done|]. congruence.
      + cbn. split; [discriminate|]. intros [H|H]; [done|discriminate]. }
  split; [apply Hiff|]. split.
  { unfold Middleware.canAccessUser. destruct (_ && _); [now right|now left]. }
  split; [reflexivity|]. split.
  { intros x Hx. unfold Middleware.requestedUserId, JS.or_null, JS.truthy.
    apply String.eqb_neq in Hx. now rewrite Hx. }
  split; [reflexivity|]. split; [reflexivity|].
  rewrite Hiff. cbn. split; [intros [H|H]; [done|discriminate]|auto].
Qed.

(** ** Keys of the users table *)

Section KeyFacts.

Implicit Types (db : User.table) (u : User.UserData).

Lemma findById_None_iff i db :
  User.findById i db = None <-> ~ In i (List.map User.id db).
Proof.
  split.
  - intros Hf Hin. apply List.in_map_iff in Hin as (u & <- & Hu).
    pose proof (List.find_none _ _ Hf u Hu) as Hn. cbn in Hn.
    now rewrite String.eqb_refl in Hn.
  - intros Hn. destruct (User.findById i db) as [u|] eqn:Hf; [|done].
    exfalso. apply Hn. apply List.in_map_iff. exists u.
    split; [now apply findById_id with (db := db)|].
    now apply List.find_some in Hf.
Qed.

(** Under unique ids the lookup by a row's id gives that row back. *)
Lemma findById_unique db u :
  Invariant.idUnique db -> In u db -> User.findById (User.id u) db = Some u.
Proof.
  unfold Invariant.idUnique, User.findById.
  induction db as [|v db IH]; intros Hnd Hin; [destruct Hin|].
  cbn in Hnd. apply List.NoDup_cons_iff in Hnd as [Hv Hnd]. cbn.
  destruct Hin as [->|Hin]; [now rewrite String.eqb_refl|].
  destruct (String.eqb (User.id v) (User.id u)) eqn:E; [|now apply IH].
  apply String.eqb_eq in E. exfalso. apply Hv. rewrite E.
  now apply List.in_map.
Qed.

Lemma updatePreferences_keys userId prefs now db :
  List.map User.id (User.updatePreferences userId prefs now db) = List.map User.id db
  /\ List.map User.email (User.updatePreferences userId prefs now db)
     = List.map User.email db.
Proof.
  unfold User.updatePreferences. rewrite !List.map_map.
  split; apply List.map_ext; intros u; now destruct (String.eqb _ _).
Qed.

Lemma updateOAuthInfo_emails userId pr oid pic now db :
  List.map User.email (User.updateOAuthInfo userId pr oid pic now db)
  = List.map User.email db.
Proof.
  rewrite updateOAuthInfo_map, List.map_map.
  apply List.map_ext. intros u. apply relinked_email.
Qed.

Lemma NoDup_snoc_fresh {A} (l : list A) (x : A) :
  List.NoDup l -> ~ In x l -> List.NoDup (l ++ [x])%list.
Proof.
  intros Hl Hx. apply List.NoDup_app; [done|repeat constructor; intros []|].
  intros a Ha [<-|[]]. now apply Hx.
Qed.

(** The keys of the table after each operation: those before, or, for
    register, those before followed by the keys of one new row, neither of
    which was there. *)
Lemma register_keys hash sec email pw name role salt newId now db :
  let db' := (AuthRoutes.register hash sec email pw name role salt newId now db).2 in
  (List.map User.id db' = List.map User.id db
   /\ List.map User.email db' = List.map User.email db)
  \/ (List.map User.id db' = (List.map User.id db ++ [newId])%list
      /\ List.map User.email db' = (List.map User.email db ++ [email])%list
      /\ ~ In newId (List.map User.id db)
      /\ ~ In email (List.map User.email db)).
Proof.
  cbv zeta.
  destruct (register_table hash sec email pw name role salt newId now db)
    as [->|(row & -> & Hid & Hemail & _ & _ & Hfresh & Hfree)]; [now left|].
  right. rewrite !List.map_app. cbn. now rewrite Hid, Hemail.
Qed.

Lemma verifyCallback_keys p prof newId now db :
  List.map User.id (OAuthConfig.verifyCallback p prof newId now db).2 = List.map User.id db
  /\ List.map User.email (OAuthConfig.verifyCallback p prof newId now db).2
     = List.map User.email db.
Proof.
  split; [apply verifyCallback_ids|].
  destruct (JS.or_null (OAuthConfig.emails0 prof)) as [e|] eqn:He.
  - destruct (User.findByEmail e db) as [u|] eqn:Hu.
    + rewrite (verifyCallback_found p prof newId now db e u He Hu).
      apply updateOAuthInfo_emails.
    + now rewrite (verifyCallback_not_found p prof newId now db e He Hu).
  - now rewrite verifyCallback_no_email.
Qed.

Lemma updateProfile_keys sec bearer prefs now db :
  List.map User.id (AuthRoutes.updateProfile sec bearer prefs now db).2 = List.map User.id db
  /\ List.map User.email (AuthRoutes.updateProfile sec bearer prefs now db).2
     = List.map User.email db.
Proof.
  unfold AuthRoutes.updateProfile.
  destruct (Middleware.authenticateToken sec bearer now db) as [r|user]; [done|].
  destruct prefs as [prefs|]; [|done]. cbn [snd]. apply updatePreferences_keys.
Qed.

Lemma link_keys provider userId oauthId now db :
  List.map User.id (OAuthRoutes.link provider userId oauthId now db).2 = List.map User.id db
  /\ List.map User.email (OAuthRoutes.link provider userId oauthId now db).2
     = List.map User.email db.
Proof.
  destruct (link_table provider userId oauthId now db) as [->|(_ & _ & ->)]; [done|].
  now rewrite updateOAuthInfo_ids, updateOAuthInfo_emails.
Qed.

Lemma unlink_keys provider userId now db :
  List.map User.id (OAuthRoutes.unlink provider userId now db).2 = List.map User.id db
  /\ List.map User.email (OAuthRoutes.unlink provider userId now db).2
     = List.map User.email db.
Proof.
  destruct (unlink_table provider userId now db) as [->| ->]; [done|].
  now rewrite updateOAuthInfo_ids, updateOAuthInfo_emails.
Qed.

End KeyFacts.

(** X8.  One email, one account: on a table where no two rows share an
    email, register, login, the profile update, the verify callbacks, link
    and unlink leave a table where no two rows share an email.  Register is
    the only one that inserts, and a row is inserted only under an email
    that was not in the table. *)
Theorem emails_stay_unique :
  forall (bcrypt_hash : string -> string -> string)
         (bcrypt_compare : string -> string -> bool)
         (JWT_SECRET : option string) (db : User.table),
    Invariant.emailUnique db ->
    (forall email password name role salt newId now,
        Invariant.emailUnique
          (AuthRoutes.register bcrypt_hash JWT_SECRET email password name role
             salt newId now db).2)
    /\ (forall email password now,
          Invariant.emailUnique
            (AuthRoutes.login bcrypt_compare JWT_SECRET email password now db).2)
    /\ (forall bearer preferences now,
          Invariant.emailUnique
            (AuthRoutes.updateProfile JWT_SECRET bearer preferences now db).2)
    /\ (forall p prof newId now,
          Invariant.emailUnique (OAuthConfig.verifyCallback p prof newId now db).2)
    /\ (forall provider userId oauthId now,
          Invariant.emailUnique (OAuthRoutes.link provider userId oauthId now db).2)
    /\ (forall provider userId now,
          Invariant.emailUnique (OAuthRoutes.unlink provider userId now db).2).
Proof.
  intros hash cmp sec db Hu. unfold Invariant.emailUnique in *.
  split; [|split; [|split; [|split; [|split]]]].
  - intros email pw name role salt newId now.
    destruct (register_keys hash sec email pw name role salt newId now db)
      as [[_ ->]|(_ & -> & _ & Hn)]; [done|now apply NoDup_snoc_fresh].
  - intros. now rewrite login_table.
  - intros. now destruct (updateProfile_keys sec bearer preferences now db) as [_ ->].
  - intros. now destruct (verifyCallback_keys p prof newId now db) as [_ ->].
  - intros. now destruct (link_keys provider userId oauthId now db) as [_ ->].
  - intros. now destruct (unlink_keys provider userId now db) as [_ ->].
Qed.

(** The sample table has three addresses; Dave registers, Bob signs in
    with Google. *)
Lemma emails_stay_unique_witness :
  Invariant.emailUnique
    (AuthRoutes.register Sample.toy_hash None "dave@example.com" "pw" "Dave" None
       "" "u-dave" 2000 Sample.db2).2
  /\ Invariant.emailUnique
       (OAuthConfig.verifyCallback OAuthConfig.google Sample.googleAsBob "u-new" 2000
          Sample.db2).2.
Proof.
  destruct (emails_stay_unique Sample.toy_hash Sample.toy_compare None Sample.db2)
    as (Hreg & _ & _ & Hcb & _).
  - unfold Invariant.emailUnique. cbn.
    repeat constructor; cbn; intros H; repeat (destruct H as [H|H]; [discriminate H|]);
      destruct H.
  - split; [apply Hreg | apply Hcb].
Defined.

(** X9.  Ids stay unique: register is the only operation that inserts, the
    primary key refuses an id that is already in the table, and every other
    operation keeps the column of ids as it is.  Under unique ids the
    session round trip holds: deserializing what [serializeUser] stored for
    a row of the table gives that row back. *)
Theorem ids_stay_unique_and_sessions_round_trip :
  forall (bcrypt_hash : string -> string -> string)
         (bcrypt_compare : string -> string -> bool)
         (JWT_SECRET : option string) (db : User.table),
    Invariant.idUnique db ->
    (forall email password name role salt newId now,
        Invariant.idUnique
          (AuthRoutes.register bcrypt_hash JWT_SECRET email password name role
             salt newId now db).2)
    /\ (forall p prof newId now,
          List.map User.id (OAuthConfig.verifyCallback p prof newId now db).2
          = List.map User.id db)
    /\ (forall email password now,
          List.map User.id (AuthRoutes.login bcrypt_compare JWT_SECRET email password now db).2
          = List.map User.id db)
    /\ (forall bearer preferences now,
          List.map User.id (AuthRoutes.updateProfile JWT_SECRET bearer preferences now db).2
          = List.map User.id db)
    /\ (forall provider userId oauthId now,
          List.map User.id (OAuthRoutes.link provider userId oauthId now db).2
          = List.map User.id db)
    /\ (forall provider userId now,
          List.map User.id (OAuthRoutes.unlink provider userId now db).2
          = List.map User.id db)
    /\ (forall u, In u db ->
          OAuthConfig.deserializeUser (OAuthConfig.serializeUser u) db = Some u).
Proof.
  intros hash cmp sec db Hu.
  split; [|split; [|split; [|split; [|split; [|split]]]]].
  - intros email pw name role salt newId now. unfold Invariant.idUnique in *.
    destruct (register_keys hash sec email pw name role salt newId now db)
      as [[-> _]|(-> & _ & Hfresh & _)]; [done|now apply NoDup_snoc_fresh].
  - intros. apply verifyCallback_ids.
  - intros. now rewrite login_table.
  - intros. apply updateProfile_keys.
  - intros. apply link_keys.
  - intros. apply unlink_keys.
  - intros u Hin. now apply findById_unique.
Qed.

(** Bob's session on the sample table; a registration under Bob's id on a
    new address is refused. *)
Lemma ids_stay_unique_and_sessions_round_trip_witness :
  OAuthConfig.deserializeUser (OAuthConfig.serializeUser Sample.bob) Sample.db2
  = Some Sample.bob
  /\ Invariant.idUnique
       (AuthRoutes.register Sample.toy_hash None "dave@example.com" "pw" "Dave" None
          "" "u-bob" 2000 Sample.db2).2.
Proof.
  destruct (ids_stay_unique_and_sessions_round_trip Sample.toy_hash Sample.toy_compare
              None Sample.db2) as (Hreg & _ & _ & _ & _ & _ & Hs).
  - unfold Invariant.idUnique. cbn.
    repeat constructor; cbn; intros H; repeat (destruct H as [H|H]; [discriminate H|]);
      destruct H.
  - split; [|apply Hreg]. apply Hs. right. now left.
Defined.

(** ** Round trips through the routes *)

Section RoundTripFacts.

Implicit Types (db : User.table) (u : User.UserData).

Lemma findById_updateOAuthInfo i userId pr oid pic now db :
  User.findById i (User.updateOAuthInfo userId pr oid pic now db)
  = option_map (User.relinked userId pr oid pic now) (User.findById i db).
Proof.
  unfold User.findById. rewrite updateOAuthInfo_map.
  apply find_map_stable. intros u. now rewrite relinked_id.
Qed.

Lemma findByEmail_In e db u : User.findByEmail e db = Some u -> In u db.
Proof. intros H. now apply List.find_some in H. Qed.

(** A token signed for a row authenticates, while it lasts, as the row
    stored under that row's id. *)
Lemma authenticateToken_signed sec u now t' db :
  t' < now + Jwt.expiresIn ->
  Middleware.authenticateToken sec
    (Some (Jwt.sign (Http.payloadOf u) (Jwt.secretOf sec) now)) t' db
  = match User.findById (User.id u) db with
    | Some user => Middleware.Next user
    | None => Middleware.Respond
                {| Http.status := 401; Http.body := Http.ErrorBody "Invalid token" |}
    end.
Proof.
  intros Ht.
  apply (authenticateToken_verified sec _ t' db (Http.payloadOf u)).
  now apply sign_verifies.
Qed.

(** What register answers with 201: the row it created, under the id and
    the address of the request, with the hash and no provider. *)
Lemma register_201 hash sec email pw name role salt newId now db :
  Http.status (AuthRoutes.register hash sec email pw name role salt newId now db).1 = 201 ->
  exists row : User.UserData,
    AuthRoutes.register hash sec email pw name role salt newId now db
    = ({| Http.status := 201;
          Http.body := Http.AuthBody "User created successfully"
                         (Jwt.sign (Http.payloadOf row) (Jwt.secretOf sec) now)
                         (Http.publicOf row) |}, (db ++ [row])%list)
    /\ User.id row = newId /\ User.email row = email
    /\ User.name row = name /\ User.role row = default "user" role
    /\ User.passwordHash row = Some (hash salt pw)
    /\ User.oauthProvider row = None
    /\ ~ In newId (List.map User.id db).
Proof.
  unfold AuthRoutes.register.
  destruct (User.findByEmail email db); [discriminate|].
  destruct (User.create _ _ _ _) as [err|[row db']] eqn:Hc; [discriminate|].
  intros _.
  apply create_inr in Hc
    as (-> & Hid & Hemail & Hh & Hpw & Hprov & _ & Hname & Hrole & Hfresh & _).
  cbn in *. exists row. split; [done|].
  split; [done|]. split; [done|]. split; [done|]. split; [done|].
  split; [|done].
  rewrite Hh in *. unfold JS.or_null in *.
  destruct (JS.truthy (Some (hash salt pw))); [done|]. now destruct Hpw.
Qed.

End RoundTripFacts.

(** X12.  Sign in through a provider, then use the token.  On a table with
    unique ids, for a profile whose email belongs to a stored user the
    verify callback hands that user to the callback route.  When
    [FRONTEND_URL || 'http://localhost:3000'] parses, the route redirects
    to it at [/auth/callback] with a token and the provider's name; when it
    does not, the route redirects to the login page with
    [oauth_callback_failed].  The token, presented within its 24 hours on
    the table the callback left, authenticates as that user's row, which
    now holds the provider and the profile's id, and [GET /profile] shows
    the user's id and the profile's email. *)
Theorem oauth_sign_in_then_profile :
  forall (URL : Type) (parseURL : string -> option URL)
         (JWT_SECRET FRONTEND_URL : option string) (p : OAuthConfig.Provider)
         (prof : OAuthConfig.Profile) (newId : string) (now t' : Z)
         (db : User.table) (e : string) (u : User.UserData),
    Invariant.idUnique db ->
    JS.or_null (OAuthConfig.emails0 prof) = Some e ->
    User.findByEmail e db = Some u ->
    t' < now + 24 * 60 * 60 ->
    let db1 := (OAuthConfig.verifyCallback p prof newId now db).2 in
    let token := Jwt.sign (Http.payloadOf u) (Jwt.secretOf JWT_SECRET) now in
    let frontend := default "http://localhost:3000" (JS.or_null FRONTEND_URL) in
    (OAuthConfig.verifyCallback p prof newId now db).1 = inr u
    /\ (forall base : URL,
          parseURL frontend = Some base ->
          OAuthRoutes.callbackRoute parseURL JWT_SECRET FRONTEND_URL p u now
          = OAuthRoutes.ToFrontend base "/auth/callback" token (OAuthConfig.providerName p))
    /\ (parseURL frontend = None ->
          OAuthRoutes.callbackRoute parseURL JWT_SECRET FRONTEND_URL p u now
          = OAuthRoutes.ToLogin "oauth_callback_failed")
    /\ exists row : User.UserData,
          Middleware.authenticateToken JWT_SECRET (Some token) t' db1 = Middleware.Next row
          /\ User.id row = User.id u /\ User.email row = e
          /\ User.oauthProvider row = Some (OAuthConfig.providerName p)
          /\ User.oauthId row = Some (OAuthConfig.profile_id prof)
          /\ AuthRoutes.getProfile JWT_SECRET (Some token) t' db1
             = AuthRoutes.ProfileOk (AuthRoutes.viewOf row)
          /\ AuthRoutes.v_id (AuthRoutes.viewOf row) = Some (User.VString (User.id u))
          /\ AuthRoutes.v_email (AuthRoutes.viewOf row) = Some (User.VString e).
Proof.
  intros URL parseURL sec fe p prof newId now t' db e u Hids He Hu Ht. cbv zeta.
  rewrite (verifyCallback_found p prof newId now db e u He Hu). cbn [fst snd].
  pose proof (findById_unique db u Hids (findByEmail_In _ _ _ Hu)) as Hrow.
  pose proof (findByEmail_email _ _ _ Hu) as Hemail.
  split; [done|]. split.
  { intros base Hbase. unfold OAuthRoutes.callbackRoute. now rewrite Hbase. }
  split.
  { intros Hbase. unfold OAuthRoutes.callbackRoute. now rewrite Hbase. }
  exists (User.setOAuth (Some (OAuthConfig.providerName p))
            (Some (OAuthConfig.profile_id prof))
            (JS.or_null (OAuthConfig.photos0 prof)) now u).
  assert (Hauth :
    Middleware.authenticateToken sec
      (Some (Jwt.sign (Http.payloadOf u) (Jwt.secretOf sec) now)) t'
      (User.updateOAuthInfo (User.id u) (Some (OAuthConfig.providerName p))
         (Some (OAuthConfig.profile_id prof))
         (JS.or_null (OAuthConfig.photos0 prof)) now db)
    = Middleware.Next
        (User.setOAuth (Some (OAuthConfig.providerName p))
           (Some (OAuthConfig.profile_id prof))
           (JS.or_null (OAuthConfig.photos0 prof)) now u)).
  { rewrite authenticateToken_signed by exact Ht.
    rewrite findById_updateOAuthInfo, Hrow. cbn [option_map].
    unfold User.relinked. now rewrite String.eqb_refl. }
  split; [exact Hauth|]. split; [done|]. split; [done|]. split; [done|].
  split; [done|]. split.
  - unfold AuthRoutes.getProfile. now rewrite Hauth.
  - split; [done|]. cbn. now rewrite Hemail.
Qed.

(** Bob signs in with Google at 2000 and presents the token at 5000; the
    frontend address is read as given. *)
Lemma oauth_sign_in_then_profile_witness :
  OAuthRoutes.callbackRoute (fun s : string => Some s) None None OAuthConfig.google
    Sample.bob 2000
  = OAuthRoutes.ToFrontend "http://localhost:3000" "/auth/callback"
      (Jwt.sign (Http.payloadOf Sample.bob) "fallback-secret" 2000) "google"
  /\ exists row : User.UserData,
       Middleware.authenticateToken None
         (Some (Jwt.sign (Http.payloadOf Sample.bob) "fallback-secret" 2000)) 5000
         (OAuthConfig.verifyCallback OAuthConfig.google Sample.googleAsBob "u-new" 2000
            Sample.db2).2
       = Middleware.Next row
       /\ User.email row = "bob@example.com"
       /\ User.oauthProvider row = Some "google".
Proof.
  destruct (oauth_sign_in_then_profile string (fun s : string => Some s) None None
              OAuthConfig.google Sample.googleAsBob "u-new" 2000 5000 Sample.db2
              "bob@example.com" Sample.bob)
    as (_ & Hfront & _ & row & Hauth & _ & Hemail & Hprov & _).
  - unfold Invariant.idUnique. cbn.
    repeat constructor; cbn; intros H; repeat (destruct H as [H|H]; [discriminate H|]);
      destruct H.
  - reflexivity.
  - reflexivity.
  - lia.
  - split; [now apply Hfront|]. exists row. auto.
Defined.

(** X21.  Two sign-ins in a row for a stored user.  For a profile whose
    email belongs to a stored user, two callbacks in a row both hand back a
    user with that user's id (the second hands back the row the first left
    under that email), and neither adds a row to the table. *)
Theorem callback_twice_for_stored_email :
  forall (p : OAuthConfig.Provider) (prof : OAuthConfig.Profile)
         (id1 id2 : string) (t1 t2 : Z) (db : User.table) (e : string)
         (u : User.UserData),
    JS.or_null (OAuthConfig.emails0 prof) = Some e ->
    User.findByEmail e db = Some u ->
    exists (u2 : User.UserData) (db1 db2 : User.table),
      OAuthConfig.verifyCallback p prof id1 t1 db = (inr u, db1)
      /\ User.findByEmail e db1 = Some u2
      /\ OAuthConfig.verifyCallback p prof id2 t2 db1 = (inr u2, db2)
      /\ User.id u2 = User.id u
      /\ List.map User.id db1 = List.map User.id db
      /\ List.map User.id db2 = List.map User.id db.
Proof.
  intros p prof id1 id2 t1 t2 db e u He Hu.
  set (db1 := User.updateOAuthInfo (User.id u) (Some (OAuthConfig.providerName p))
                (Some (OAuthConfig.profile_id prof))
                (JS.or_null (OAuthConfig.photos0 prof)) t1 db).
  set (u2 := User.relinked (User.id u) (Some (OAuthConfig.providerName p))
                (Some (OAuthConfig.profile_id prof))
                (JS.or_null (OAuthConfig.photos0 prof)) t1 u).
  assert (Hu2 : User.findByEmail e db1 = Some u2)
    by (unfold db1; now rewrite findByEmail_updateOAuthInfo, Hu).
  exists u2, db1, (OAuthConfig.verifyCallback p prof id2 t2 db1).2.
  split; [exact (verifyCallback_found p prof id1 t1 db e u He Hu)|].
  split; [exact Hu2|]. split.
  - now rewrite (verifyCallback_found p prof id2 t2 db1 e u2 He Hu2).
  - split; [apply relinked_id|]. split; [apply updateOAuthInfo_ids|].
    rewrite verifyCallback_ids. apply updateOAuthInfo_ids.
Qed.

(** Bob signs in with Google twice. *)
Lemma callback_twice_for_stored_email_witness :
  exists (u2 : User.UserData) (db1 db2 : User.table),
    OAuthConfig.verifyCallback OAuthConfig.google Sample.googleAsBob "u-1" 2000 Sample.db2
    = (inr Sample.bob, db1)
    /\ OAuthConfig.verifyCallback OAuthConfig.google Sample.googleAsBob "u-2" 2500 db1
       = (inr u2, db2)
    /\ User.id u2 = "u-bob"
    /\ List.map User.id db2 = ["u-erin"; "u-bob"; "u-carol"].
Proof.
  destruct (callback_twice_for_stored_email OAuthConfig.google Sample.googleAsBob
              "u-1" "u-2" 2000 2500 Sample.db2 "bob@example.com" Sample.bob)
    as (u2 & db1 & db2 & H1 & _ & H2 & Hid & _ & Hids).
  - reflexivity.
  - reflexivity.
  - exists u2, db1, db2. auto.
Defined.

(** X22.  Register, then use the token.  When register answers 201, the
    answer carries the id, email, name and role of the account and a token
    that, presented within its 24 hours on the table register left,
    authenticates as the row just stored: under the id drawn, with the
    address, name and role of the request, the hash of the password and no
    provider; [GET /profile] shows that id, address, name and role. *)
Theorem register_then_profile :
  forall (bcrypt_hash : string -> string -> string) (JWT_SECRET : option string)
         (email password name : string) (role : option string) (salt newId : string)
         (t1 t2 : Z) (db : User.table),
    Http.status
      (AuthRoutes.register bcrypt_hash JWT_SECRET email password name role
         salt newId t1 db).1 = 201 ->
    t2 < t1 + 24 * 60 * 60 ->
    let db1 :=
      (AuthRoutes.register bcrypt_hash JWT_SECRET email password name role
         salt newId t1 db).2 in
    let token :=
      Jwt.sign {| Jwt.userId := newId; Jwt.email := email;
                  Jwt.role := default "user" role |} (Jwt.secretOf JWT_SECRET) t1 in
    (AuthRoutes.register bcrypt_hash JWT_SECRET email password name role
       salt newId t1 db).1
    = {| Http.status := 201;
         Http.body :=
           Http.AuthBody "User created successfully" token
             {| Http.pu_id := newId; Http.pu_email := email; Http.pu_name := name;
                Http.pu_role := default "user" role |} |}
    /\ exists row : User.UserData,
         Middleware.authenticateToken JWT_SECRET (Some token) t2 db1 = Middleware.Next row
         /\ User.id row = newId /\ User.email row = email
         /\ User.name row = name /\ User.role row = default "user" role
         /\ User.passwordHash row = Some (bcrypt_hash salt password)
         /\ User.oauthProvider row = None
         /\ AuthRoutes.getProfile JWT_SECRET (Some token) t2 db1
            = AuthRoutes.ProfileOk (AuthRoutes.viewOf row)
         /\ AuthRoutes.v_id (AuthRoutes.viewOf row) = Some (User.VString newId)
         /\ AuthRoutes.v_email (AuthRoutes.viewOf row) = Some (User.VString email)
         /\ AuthRoutes.v_name (AuthRoutes.viewOf row) = Some (User.VString name)
         /\ AuthRoutes.v_role (AuthRoutes.viewOf row)
            = Some (User.VString (default "user" role)).
Proof.
  intros hash sec email pw name role salt newId t1 t2 db H201 Ht. cbv zeta.
  destruct (register_201 hash sec email pw name role salt newId t1 db H201)
    as (row & -> & Hid & Hemail & Hname & Hrole & Hpw & Hprov & Hfresh).
  cbn [fst snd].
  assert (Hpayload : Http.payloadOf row
                     = {| Jwt.userId := newId; Jwt.email := email;
                          Jwt.role := default "user" role |})
    by (unfold Http.payloadOf; now rewrite Hid, Hemail, Hrole).
  assert (Hpublic : Http.publicOf row
                    = {| Http.pu_id := newId; Http.pu_email := email;
                         Http.pu_name := name; Http.pu_role := default "user" role |})
    by (unfold Http.publicOf; now rewrite Hid, Hemail, Hname, Hrole).
  rewrite Hpayload, Hpublic. split; [done|]. exists row.
  assert (Hauth :
    Middleware.authenticateToken sec
      (Some (Jwt.sign {| Jwt.userId := newId; Jwt.email := email;
                         Jwt.role := default "user" role |} (Jwt.secretOf sec) t1))
      t2 (db ++ [row])%list
    = Middleware.Next row).
  { rewrite <- Hpayload. rewrite authenticateToken_signed by exact Ht.
    rewrite Hid.
    assert (User.findById newId (db ++ [row])%list = Some row) as ->; [|done].
    apply find_snoc_fresh; [now apply findById_None_iff|].
    rewrite Hid. apply String.eqb_refl. }
  split; [exact Hauth|].
  split; [done|]. split; [done|]. split; [done|]. split; [done|].
  split; [done|]. split; [done|]. split.
  - unfold AuthRoutes.getProfile. now rewrite Hauth.
  - cbn. now rewrite Hid, Hemail, Hname, Hrole.
Qed.

(** Dave registers on the sample table at 2000 and presents the token at 3000. *)
Lemma register_then_profile_witness :
  exists row : User.UserData,
    Middleware.authenticateToken None
      (Some (Jwt.sign {| Jwt.userId := "u-dave"; Jwt.email := "dave@example.com";
                         Jwt.role := "user" |} "fallback-secret" 2000)) 3000
      (AuthRoutes.register Sample.toy_hash None "dave@example.com" "pw" "Dave" None
         "" "u-dave" 2000 Sample.db2).2
    = Middleware.Next row
    /\ User.email row = "dave@example.com"
    /\ User.passwordHash row = Some "$2a$12$:pw".
Proof.
  destruct (register_then_profile Sample.toy_hash None "dave@example.com" "pw" "Dave"
              None "" "u-dave" 2000 3000 Sample.db2)
    as (_ & row & Hauth & _ & Hemail & _ & _ & Hpw & _).
  - reflexivity.
  - lia.
  - exists row. auto.
Defined.

(** ** Linking and unlinking *)

Section LinkFacts.

Implicit Types (db : User.table) (u : User.UserData).

(** The link route answers 200 only past its three checks. *)
Lemma link_ok_inv provider userId oauthId now db :
  Http.status (OAuthRoutes.link provider userId oauthId now db).1 = 200 ->
  OAuthRoutes.knownProvider provider = true
  /\ (exists w, User.findById userId db = Some w)
  /\ (forall w, User.findByOAuthId provider oauthId db = Some w -> User.id w = userId)
  /\ (OAuthRoutes.link provider userId oauthId now db).2
     = User.updateOAuthInfo userId (Some provider) (Some oauthId) None now db.
Proof.
  unfold OAuthRoutes.link, User.linkOAuthAccount.
  destruct (OAuthRoutes.knownProvider provider); [|discriminate]. cbn [negb].
  destruct (User.findById userId db) as [w0|]; [|discriminate].
  destruct (User.findByOAuthId provider oauthId db) as [w|].
  - destruct (String.eqb (User.id w) userId) eqn:E; cbn; [|discriminate].
    intros _. split; [done|]. split; [eauto|]. split; [|done].
    intros w' [= <-]. now apply String.eqb_eq.
  - cbn. intros _. split; [done|]. split; [eauto|]. split; [discriminate|done].
Qed.

Lemma unlink_ok_inv provider userId now db :
  Http.status (OAuthRoutes.unlink provider userId now db).1 = 200 ->
  OAuthRoutes.knownProvider provider = true
  /\ (exists w, User.findById userId db = Some w)
  /\ (OAuthRoutes.unlink provider userId now db).2
     = User.updateOAuthInfo userId None None None now db.
Proof.
  unfold OAuthRoutes.unlink.
  destruct (OAuthRoutes.knownProvider provider); [|discriminate]. cbn [negb].
  destruct (User.findById userId db) as [w0|]; [|discriminate]. eauto.
Qed.

Lemma updateOAuthInfo_unlink_twice userId t1 t2 db :
  User.updateOAuthInfo userId None None None t2
    (User.updateOAuthInfo userId None None None t1 db)
  = User.updateOAuthInfo userId None None None t2 db.
Proof.
  rewrite !updateOAuthInfo_map, List.map_map. apply List.map_ext. intros u.
  unfold User.relinked at 2. destruct (String.eqb (User.id u) userId) eqn:E.
  - unfold User.relinked. cbn [User.setOAuth User.id]. now rewrite E.
  - reflexivity.
Qed.

End LinkFacts.

(** X13.  Link, then look up.  On a table where the pair is unique, once
    the link route has answered 200 the lookup by (provider, oauthId) finds
    a row of the linking user, and a later attempt by any other stored user
    to link the same pair is answered 409 and writes nothing. *)
Theorem link_then_lookup :
  forall (provider userId oauthId : string) (now : Z) (db : User.table),
    Invariant.oauthUnique db ->
    Http.status (OAuthRoutes.link provider userId oauthId now db).1 = 200 ->
    (exists u, User.findByOAuthId provider oauthId
                 (OAuthRoutes.link provider userId oauthId now db).2 = Some u
               /\ User.id u = userId)
    /\ (forall (other : string) (t : Z) (w : User.UserData),
          other <> userId ->
          User.findById other (OAuthRoutes.link provider userId oauthId now db).2 = Some w ->
          OAuthRoutes.link provider other oauthId t
            (OAuthRoutes.link provider userId oauthId now db).2
          = ({| Http.status := 409;
                Http.body := Http.ErrorBody "OAuth account already linked to another user" |},
             (OAuthRoutes.link provider userId oauthId now db).2)).
Proof.
  intros provider userId oauthId now db Huniq H200.
  destruct (link_ok_inv provider userId oauthId now db H200)
    as (Hk & (w0 & Hw0) & Hguard & Hdb).
  rewrite Hdb.
  assert (Hfound : exists u,
            User.findByOAuthId provider oauthId
              (User.updateOAuthInfo userId (Some provider) (Some oauthId) None now db) = Some u
            /\ User.id u = userId).
  { pose proof (findById_id _ _ _ Hw0) as Hid0.
    assert (Hin0 : In (User.relinked userId (Some provider) (Some oauthId) None now w0)
                     (User.updateOAuthInfo userId (Some provider) (Some oauthId) None now db)).
    { rewrite updateOAuthInfo_map. apply List.in_map.
      unfold User.findById in Hw0. now apply List.find_some in Hw0. }
    destruct (findByOAuthId_finds provider oauthId _ _ Hin0) as [u Hu].
    { unfold User.relinked. apply String.eqb_eq in Hid0. now rewrite Hid0. }
    { unfold User.relinked. apply String.eqb_eq in Hid0. now rewrite Hid0. }
    exists u. split; [exact Hu|].
    apply findByOAuthId_matches in Hu as (Hin & Hp & Ho).
    apply in_updateOAuthInfo in Hin as (u0 & Hu0 & ->).
    rewrite relinked_id. unfold User.relinked in Hp, Ho.
    destruct (String.eqb (User.id u0) userId) eqn:E; [now apply String.eqb_eq|].
    exfalso. destruct (findByOAuthId_finds provider oauthId db u0 Hu0 Hp Ho) as [w Hw].
    pose proof (Hguard w Hw) as Hidw.
    apply findByOAuthId_matches in Hw as (Hwin & Hwp & Hwo).
    assert (User.id w = User.id u0) as Heq
      by (apply Huniq; auto; exists provider, oauthId; auto).
    apply String.eqb_neq in E. congruence. }
  split; [exact Hfound|].
  intros other t w Hne Hw. destruct Hfound as (u & Hu & Hid).
  unfold OAuthRoutes.link. rewrite Hk, Hw, Hu. cbn [negb].
  assert (String.eqb (User.id u) other = false) as ->
    by (apply String.eqb_neq; congruence).
  reflexivity.
Qed.

(** Bob links the GitHub identity 42; Alice then tries the same identity. *)
Lemma link_then_lookup_witness :
  Http.status
    (OAuthRoutes.link "github" "u-alice" "42" 2500
       (OAuthRoutes.link "github" "u-bob" "42" 2000 Sample.db0).2).1
  = 409.
Proof.
  destruct (link_then_lookup "github" "u-bob" "42" 2000 Sample.db0) as (_ & Hsecond).
  - intros u v Hu Hv (p & o & Hp & _ & Hp' & _).
    destruct Hu as [<-|[<-|[]]]; [|discriminate].
    destruct Hv as [<-|[<-|[]]]; [reflexivity|discriminate].
  - reflexivity.
  - rewrite (Hsecond "u-alice" 2500 Sample.alice); [reflexivity|discriminate|reflexivity].
Defined.

(** X14.  Unlink clears whatever provider is linked.  Once the unlink route
    has answered 200, no row of that user carries a provider or an external
    id and no lookup by a pair finds that user; the provider named in the
    path plays no part beyond being one of the three known names; password
    hash and picture are kept; and unlinking again is answered 200 and
    gives the table a single unlink at the later time gives. *)
Theorem unlink_clears_any_provider :
  forall (provider userId : string) (now : Z) (db : User.table),
    Http.status (OAuthRoutes.unlink provider userId now db).1 = 200 ->
    (forall u, In u (OAuthRoutes.unlink provider userId now db).2 ->
               User.id u = userId ->
               User.oauthProvider u = None /\ User.oauthId u = None)
    /\ (forall q o u,
          User.findByOAuthId q o (OAuthRoutes.unlink provider userId now db).2 = Some u ->
          User.id u <> userId)
    /\ (forall provider',
          OAuthRoutes.knownProvider provider' = true ->
          OAuthRoutes.unlink provider' userId now db
          = OAuthRoutes.unlink provider userId now db)
    /\ List.map User.passwordHash (OAuthRoutes.unlink provider userId now db).2
       = List.map User.passwordHash db
    /\ List.map User.picture (OAuthRoutes.unlink provider userId now db).2
       = List.map User.picture db
    /\ (forall provider' t,
          OAuthRoutes.knownProvider provider' = true ->
          OAuthRoutes.unlink provider' userId t (OAuthRoutes.unlink provider userId now db).2
          = ({| Http.status := 200;
                Http.body := Http.MessageBody "OAuth account unlinked successfully" |},
             User.updateOAuthInfo userId None None None t db)).
Proof.
  intros provider userId now db H200.
  destruct (unlink_ok_inv provider userId now db H200) as (Hk & (w0 & Hw0) & Hdb).
  assert (Hrows : forall u,
            In u (User.updateOAuthInfo userId None None None now db) ->
            User.id u = userId ->
            User.oauthProvider u = None /\ User.oauthId u = None).
  { intros u Hin Hid. apply in_updateOAuthInfo in Hin as (u0 & _ & ->).
    rewrite relinked_id in Hid. unfold User.relinked.
    apply String.eqb_eq in Hid. now rewrite Hid. }
  rewrite Hdb. split; [exact Hrows|]. split.
  { intros q o u Hu Hid. apply findByOAuthId_matches in Hu as (Hin & Hp & _).
    destruct (Hrows u Hin Hid) as [Hnone _]. congruence. }
  split.
  { intros provider' Hk'. unfold OAuthRoutes.unlink. now rewrite Hk, Hk'. }
  split.
  { rewrite updateOAuthInfo_map, List.map_map. apply List.map_ext.
    intros u. apply relinked_passwordHash. }
  split.
  { rewrite updateOAuthInfo_map, List.map_map. apply List.map_ext.
    intros u. unfold User.relinked. now destruct (String.eqb _ _). }
  intros provider' t Hk'. unfold OAuthRoutes.unlink. rewrite Hk'. cbn [negb].
  rewrite findById_updateOAuthInfo, Hw0. cbn [option_map].
  now rewrite updateOAuthInfo_unlink_twice.
Qed.

(** Alice, linked to Google, is unlinked through the GitHub path, twice. *)
Lemma unlink_clears_any_provider_witness :
  OAuthRoutes.unlink "google" "u-alice" 3000
    (OAuthRoutes.unlink "github" "u-alice" 2000 Sample.db0).2
  = ({| Http.status := 200;
        Http.body := Http.MessageBody "OAuth account unlinked successfully" |},
     User.updateOAuthInfo "u-alice" None None None 3000 Sample.db0).
Proof.
  destruct (unlink_clears_any_provider "github" "u-alice" 2000 Sample.db0)
    as (_ & _ & _ & _ & _ & H); [reflexivity|].
  apply H. reflexivity.
Defined.

(** X15.  Starting a flow does not disturb a pending one.  For every key
    other than the one just drawn, and every later clock reading,
    [verifyPKCE] answers on the store left by [generatePKCE] what it would
    have answered on the store before it: the sweep removes only entries
    that could no longer verify, and a live entry stays as it was. *)
Theorem generatePKCE_leaves_pending_flows :
  forall (sha256 : string -> string) (verifier key : string) (now : Z)
         (s : Pkce.store) (k presented : string) (t : Z),
    k <> key -> now <= t ->
    (Pkce.verifyPKCE k presented t (Pkce.generatePKCE sha256 verifier key now s).2).1
    = (Pkce.verifyPKCE k presented t s).1
    /\ (forall e, s !! k = Some e -> ~ (Pkce.expires e < now) ->
          (Pkce.generatePKCE sha256 verifier key now s).2 !! k = Some e)
    /\ (forall e, (Pkce.generatePKCE sha256 verifier key now s).2 !! k = Some e ->
          s !! k = Some e /\ ~ (Pkce.expires e < now)).
Proof.
  intros sha256 verifier key now s k presented t Hne Ht.
  unfold Pkce.generatePKCE. cbn [snd].
  set (e0 := {| Pkce.challenge := sha256 verifier; Pkce.verifier := verifier;
                Pkce.expires := now + 10 * 60 * 1000 |}).
  set (s' := filter (fun kv : string * Pkce.entry => ¬ (Pkce.expires kv.2 < now))
               (<[key:=e0]> s)).
  assert (Hkeep : forall e, s !! k = Some e -> ~ (Pkce.expires e < now) -> s' !! k = Some e).
  { intros e He Hlive. apply map_lookup_filter_Some. split; [|exact Hlive].
    now rewrite lookup_insert_ne by congruence. }
  assert (Hback : forall e, s' !! k = Some e -> s !! k = Some e /\ ~ (Pkce.expires e < now)).
  { intros e He. apply map_lookup_filter_Some in He as [He Hlive].
    rewrite lookup_insert_ne in He by congruence. split; [exact He|exact Hlive]. }
  split; [|split; [exact Hkeep|exact Hback]].
  destruct (s !! k) as [e|] eqn:Hk.
  - destruct (decide (Pkce.expires e < now)) as [Hx|Hlive].
    + assert (Hgone : s' !! k = None).
      { destruct (s' !! k) as [e'|] eqn:Hk'; [|done].
        destruct (Hback e' eq_refl) as [[= ->] Hl]. contradiction. }
      rewrite (verifyPKCE_absent k presented t s' Hgone).
      rewrite (verifyPKCE_expired k presented t s e Hk); [done|lia].
    + pose proof (Hkeep e eq_refl Hlive) as Hk'.
      unfold Pkce.verifyPKCE. rewrite Hk, Hk'. now destruct (_ || _).
  - assert (Hgone : s' !! k = None).
    { destruct (s' !! k) as [e'|] eqn:Hk'; [|done].
      destruct (Hback e' eq_refl) as [[=] _]. }
    now rewrite (verifyPKCE_absent k presented t s' Hgone),
                (verifyPKCE_absent k presented t s Hk).
Qed.

(** A second flow starts one minute after the sample one; the first still verifies. *)
Lemma generatePKCE_leaves_pending_flows_witness :
  (Pkce.verifyPKCE "a3f1" (Pkce.challenge Sample.entry1) 1700000200000
     (Pkce.generatePKCE (fun v => "sha256:" ++ v) "v-2" "c9d4" 1700000060000
        Sample.store1).2).1
  = (Pkce.verifyPKCE "a3f1" (Pkce.challenge Sample.entry1) 1700000200000 Sample.store1).1.
Proof.
  destruct (generatePKCE_leaves_pending_flows (fun v => "sha256:" ++ v) "v-2" "c9d4"
              1700000060000 Sample.store1 "a3f1" (Pkce.challenge Sample.entry1)
              1700000200000) as (H & _); [discriminate|lia|exact H].
Defined.

(** ** The profile update *)

Section ProfileFacts.

Lemma Forall2_map_self {A} (R : A -> A -> Prop) (f : A -> A) (l : list A) :
  (forall x, R x (f x)) -> List.Forall2 R l (List.map f l).
Proof. intros H. induction l; cbn; constructor; auto. Qed.

Lemma sameButPreferences_refl u : Invariant.sameButPreferences u u.
Proof. unfold Invariant.sameButPreferences. repeat split. Qed.

End ProfileFacts.

(** X16.  The profile update writes preferences and nothing else.  Row by
    row, the table after [PUT /profile] is the table before it up to the
    columns [preferences] and [updated_at]: id, email, password hash, name,
    role, provider, external id, picture, verification flag, creation time
    and last login are as they were.  Rows of other ids are untouched, a
    request that does not authenticate or carries no preferences writes
    nothing, and after an authenticated update the caller's rows hold the
    preferences sent. *)
Theorem updateProfile_writes_preferences_only :
  forall (JWT_SECRET : option string) (bearer : option Jwt.Token)
         (preferences : option string) (now : Z) (db : User.table),
    List.Forall2 Invariant.sameButPreferences db
      (AuthRoutes.updateProfile JWT_SECRET bearer preferences now db).2
    /\ (forall r0, Middleware.authenticateToken JWT_SECRET bearer now db = Middleware.Respond r0 ->
          AuthRoutes.updateProfile JWT_SECRET bearer preferences now db = (r0, db))
    /\ (preferences = None ->
          (AuthRoutes.updateProfile JWT_SECRET bearer preferences now db).2 = db)
    /\ (forall u r, Middleware.authenticateToken JWT_SECRET bearer now db = Middleware.Next u ->
          In r db -> User.id r <> User.id u ->
          In r (AuthRoutes.updateProfile JWT_SECRET bearer preferences now db).2)
    /\ (forall u prefs r,
          Middleware.authenticateToken JWT_SECRET bearer now db = Middleware.Next u ->
          preferences = Some prefs ->
          In r (AuthRoutes.updateProfile JWT_SECRET bearer preferences now db).2 ->
          User.id r = User.id u ->
          User.preferences r = prefs /\ User.updatedAt r = now).
Proof.
  intros sec bearer preferences now db. unfold AuthRoutes.updateProfile.
  destruct (Middleware.authenticateToken sec bearer now db) as [r0|user].
  { cbn [snd]. split.
    { pose proof (Forall2_map_self Invariant.sameButPreferences (fun x => x) db
                    sameButPreferences_refl) as H. now rewrite List.map_id in H. }
    split; [now intros ? [= ->]|]. split; [done|]. split; intros; discriminate. }
  destruct preferences as [prefs|]; cbn [snd].
  - split.
    { unfold User.updatePreferences. apply Forall2_map_self. intros x.
      destruct (String.eqb _ _); [|apply sameButPreferences_refl].
      unfold Invariant.sameButPreferences. cbn. repeat split. }
    split; [discriminate|]. split; [discriminate|]. split.
    + intros u r [= <-] Hin Hne. unfold User.updatePreferences.
      apply List.in_map_iff. exists r. split; [|exact Hin].
      apply String.eqb_neq in Hne. now rewrite Hne.
    + intros u p r [= <-] [= <-] Hin Hid. unfold User.updatePreferences in Hin.
      apply List.in_map_iff in Hin as (x & Hx & _).
      destruct (String.eqb (User.id x) (User.id user)) eqn:E.
      * subst r. now cbn.
      * subst r. apply String.eqb_neq in E. contradiction.
  - split.
    { pose proof (Forall2_map_self Invariant.sameButPreferences (fun x => x) db
                    sameButPreferences_refl) as H. now rewrite List.map_id in H. }
    split; [discriminate|]. split; [done|]. split; [now intros|]. discriminate.
Qed.

(** ** Sessions over time *)

(** X17.  Refreshing extends a session.  A token signed for a user whose
    id is still stored, refreshed before its 24 hours are over, is answered
    200 with a token for the stored row that [authenticateToken] accepts
    for 24 hours from the refresh, however long ago the first token was
    issued; refreshed at its expiry or later it is answered 401. *)
Theorem refresh_extends_session :
  forall (JWT_SECRET : option string) (u row : User.UserData) (t0 t1 t2 : Z)
         (db : User.table),
    User.findById (User.id u) db = Some row ->
    t1 < t0 + 24 * 60 * 60 ->
    t2 < t1 + 24 * 60 * 60 ->
    AuthRoutes.refresh JWT_SECRET
      (Some (Jwt.sign (Http.payloadOf u) (Jwt.secretOf JWT_SECRET) t0)) t1 db
    = {| Http.status := 200;
         Http.body := Http.TokenBody
                        (Jwt.sign (Http.payloadOf row) (Jwt.secretOf JWT_SECRET) t1) |}
    /\ Middleware.authenticateToken JWT_SECRET
         (Some (Jwt.sign (Http.payloadOf row) (Jwt.secretOf JWT_SECRET) t1)) t2 db
       = Middleware.Next row
    /\ (forall t, t0 + 24 * 60 * 60 <= t ->
          AuthRoutes.refresh JWT_SECRET
            (Some (Jwt.sign (Http.payloadOf u) (Jwt.secretOf JWT_SECRET) t0)) t db
          = {| Http.status := 401; Http.body := Http.ErrorBody "Invalid token" |}).
Proof.
  intros sec u row t0 t1 t2 db Hrow H1 H2. split; [|split].
  - rewrite (refresh_verified sec _ t1 db (Http.payloadOf u)); [|done|].
    + cbn [Http.payloadOf Jwt.userId]. now rewrite Hrow.
    + now apply sign_verifies.
  - rewrite authenticateToken_signed by exact H2.
    now rewrite (findById_id _ _ _ Hrow), Hrow.
  - intros t Ht.
    apply refresh_unverified with (c := Jwt.TokenExpiredError); [done|].
    unfold Jwt.sign. now apply verify_expired.
Qed.

(** Bob's token of time 3600 is refreshed at 80000 and used at 160000. *)
Lemma refresh_extends_session_witness :
  Middleware.authenticateToken None
    (Some (Jwt.sign (Http.payloadOf Sample.bob) (Jwt.secretOf None) 80000)) 160000 Sample.db0
  = Middleware.Next Sample.bob.
Proof.
  destruct (refresh_extends_session None Sample.bob Sample.bob 3600 80000 160000 Sample.db0)
    as (_ & H & _); [reflexivity|lia|lia|exact H].
Defined.

(** ** The conversation store *)

Section ConversationFacts.

Implicit Types (db : ConversationManager.table) (c : ConversationManager.ConversationData).

Lemma updateStatus_absent i s now db :
  ConversationManager.findById i db = None ->
  ConversationManager.updateStatus i s now db = db.
Proof.
  intros Hf. unfold ConversationManager.updateStatus.
  rewrite <- (List.map_id db) at 2. apply List.map_ext_in. intros c Hc.
  pose proof (List.find_none _ _ Hf c Hc) as Hn. cbn in Hn. now rewrite Hn.
Qed.

Lemma endedConsistent_updated c s now :
  Invariant.endedConsistent
    {| ConversationManager.id := ConversationManager.id c;
       ConversationManager.userId := ConversationManager.userId c;
       ConversationManager.adminId := ConversationManager.adminId c;
       ConversationManager.title := ConversationManager.title c;
       ConversationManager.metadata := ConversationManager.metadata c;
       ConversationManager.startedAt := ConversationManager.startedAt c;
       ConversationManager.endedAt := if String.eqb s "ended" then Some now else None;
       ConversationManager.status := s |}.
Proof.
  unfold Invariant.endedConsistent. cbn.
  destruct (String.eqb s "ended") eqn:E.
  - apply String.eqb_eq in E. split; [done|]. intros _. eauto.
  - apply String.eqb_neq in E. split; [intros [x Hx]; discriminate|done].
Qed.

Lemma or_null_Some (value : option string) (v : string) :
  JS.or_null value = Some v -> value = Some v /\ v <> "".
Proof.
  unfold JS.or_null, JS.truthy. destruct value as [y|]; [|done].
  destruct (String.eqb y "") eqn:E; [done|]. intros [= ->].
  split; [done|]. now apply String.eqb_neq.
Qed.

(** One block of [getAll] on the builder of the filters given so far. *)
Lemma pushWhen_built fs value condition :
  ConversationManager.pushWhen value condition (Invariant.built fs)
  = Invariant.built
      (fs ++ match JS.or_null value with
             | Some v => [(condition, v)]
             | None => []
             end)%list.
Proof.
  unfold ConversationManager.pushWhen, Invariant.built.
  destruct (JS.or_null value) as [v|]; [|now rewrite app_nil_r].
  unfold Invariant.numbered. rewrite imap_app, map_app, length_app. cbn.
  rewrite Nat.add_0_r.
  assert (E1 : Z.of_nat (S (length fs)) = 1 + Z.of_nat (length fs)) by lia.
  assert (E2 : 1 + Z.of_nat (length fs + 1) = 1 + Z.of_nat (length fs) + 1) by lia.
  now rewrite E1, E2.
Qed.

Lemma filters_built o :
  ConversationManager.filters o = Invariant.built (Invariant.givenFilters o).
Proof.
  unfold ConversationManager.filters.
  change ([], [], 1) with (Invariant.built []).
  rewrite !pushWhen_built. f_equal. unfold Invariant.givenFilters. cbn.
  destruct (JS.or_null (ConversationManager.o_userId o));
    destruct (JS.or_null (ConversationManager.o_status o));
    destruct (JS.or_null (ConversationManager.startDate o));
    destruct (JS.or_null (ConversationManager.endDate o)); reflexivity.
Qed.

Lemma givenFilters_nonempty o cv :
  In cv (Invariant.givenFilters o) -> cv.2 <> "".
Proof.
  unfold Invariant.givenFilters. cbn.
  destruct (JS.or_null (ConversationManager.o_userId o)) eqn:H1;
    destruct (JS.or_null (ConversationManager.o_status o)) eqn:H2;
    destruct (JS.or_null (ConversationManager.startDate o)) eqn:H3;
    destruct (JS.or_null (ConversationManager.endDate o)) eqn:H4;
    cbn; intros Hin;
    repeat (destruct Hin as [<-|Hin]; [cbn; eapply or_null_Some; eassumption|]);
    destruct Hin.
Qed.

(** Below [2^53] every integer is a number. *)
Lemma toDouble_exact z : Z.abs z < 2 ^ 53 -> JS.toDouble z = JS.Finite z.
Proof.
  intros Hz. unfold JS.toDouble.
  destruct (Z.abs z <? 2 ^ 53) eqn:E; [done|]. apply Z.ltb_ge in E. lia.
Qed.

End ConversationFacts.

(** X19.  The end time of a conversation follows its status.  On a table
    where a conversation has an end time exactly when its status is
    [ended], the routes that create a conversation and that patch a status,
    and [assignAdmin], leave such a table.  A conversation is created
    [active] with no end time; after a patch every row of that id has the
    new status and an end time (the time of the patch) exactly when the
    status is [ended], so reopening an ended conversation clears its end
    time; and a patch for an id that is not stored is answered 200 all the
    same and writes nothing, where the details route answers 404. *)
Theorem conversation_end_time_follows_status :
  forall db : ConversationManager.table,
    List.Forall Invariant.endedConsistent db ->
    (forall userId title metadata newId now,
        List.Forall Invariant.endedConsistent
          (ChatRoutes.createConversation userId title metadata newId now db).2
        /\ ConversationManager.status
             (ChatRoutes.createConversation userId title metadata newId now db).1.2 = "active"
        /\ ConversationManager.endedAt
             (ChatRoutes.createConversation userId title metadata newId now db).1.2 = None)
    /\ (forall id status now,
          List.Forall Invariant.endedConsistent (ChatRoutes.patchStatus id status now db).2)
    /\ (forall conversationId adminId,
          List.Forall Invariant.endedConsistent
            (ConversationManager.assignAdmin conversationId adminId db))
    /\ (forall id status now c,
          In c (ChatRoutes.patchStatus id status now db).2 ->
          ConversationManager.id c = id ->
          ConversationManager.status c = status
          /\ ConversationManager.endedAt c
             = if String.eqb status "ended" then Some now else None)
    /\ (forall id status now,
          ConversationManager.findById id db = None ->
          ChatRoutes.patchStatus id status now db
          = ({| Http.status := 200;
                Http.body := Http.MessageBody "Conversation status updated successfully" |},
             db)
          /\ ChatRoutes.conversationDetails id db
             = inl {| Http.status := 404;
                      Http.body := Http.ErrorBody "Conversation not found" |}).
Proof.
  intros db Hinv. split; [|split; [|split; [|split]]].
  - intros userId title metadata newId now. cbn. split; [|done].
    apply List.Forall_app. split; [done|]. constructor; [|constructor].
    unfold Invariant.endedConsistent. cbn. split; [intros [x Hx]; discriminate|discriminate].
  - intros id status now. cbn. unfold ConversationManager.updateStatus.
    apply List.Forall_map. eapply List.Forall_impl; [|exact Hinv].
    intros c Hc. destruct (String.eqb _ _); [apply endedConsistent_updated|done].
  - intros cid admin. unfold ConversationManager.assignAdmin.
    apply List.Forall_map. eapply List.Forall_impl; [|exact Hinv].
    intros c Hc. now destruct (String.eqb _ _).
  - intros id status now c Hin Hid. cbn in Hin.
    unfold ConversationManager.updateStatus in Hin.
    apply List.in_map_iff in Hin as (x & Hx & _).
    destruct (String.eqb (ConversationManager.id x) id) eqn:E.
    + now subst c.
    + subst c. apply String.eqb_neq in E. contradiction.
  - intros id status now Hf. split.
    + unfold ChatRoutes.patchStatus. now rewrite updateStatus_absent.
    + unfold ChatRoutes.conversationDetails. now rewrite Hf.
Qed.

(** On the empty table: a conversation is created, ended, and reopened. *)
Lemma conversation_end_time_follows_status_witness :
  List.Forall Invariant.endedConsistent
    (ChatRoutes.patchStatus "c-1" "active" 300
       (ChatRoutes.patchStatus "c-1" "ended" 200
          (ChatRoutes.createConversation "u-bob" None None "c-1" 100 []).2).2).2.
Proof.
  destruct (conversation_end_time_follows_status
              (ChatRoutes.patchStatus "c-1" "ended" 200
                 (ChatRoutes.createConversation "u-bob" None None "c-1" 100 []).2).2)
    as (_ & H & _); [|apply H].
  destruct (conversation_end_time_follows_status
              (ChatRoutes.createConversation "u-bob" None None "c-1" 100 []).2)
    as (_ & H & _); [|apply H].
  destruct (conversation_end_time_follows_status []) as (H & _); [constructor|apply H].
Defined.

(** X20.  The query of [getAll].  For any options the text handed to
    [pool.query] is the SELECT, then, when at least one filter is given, a
    WHERE clause that joins with AND one condition per given filter, in the
    order user, status, start date, end date, the [k]-th of them ending in
    the placeholder of number [k], then ORDER BY with the placeholders of
    LIMIT and OFFSET numbered next; the parameters are the values of the
    given filters in that order, then the limit (20 when absent) and the
    offset (page 1 when absent).  So the [k]-th placeholder names the value
    of the [k]-th condition's filter, and an absent or empty filter adds
    neither a condition nor a parameter.  The offset is [(page - 1) * limit]
    as numbers compute it: exactly that integer as long as [page - 1] and
    the product stay below [2^53] in absolute value. *)
Theorem getAll_placeholders_match_parameters :
  forall o : ConversationManager.Options,
    let fs := Invariant.givenFilters o in
    let n := Z.of_nat (length fs) in
    let limit := default 20 (ConversationManager.limit o) in
    let page := default 1 (ConversationManager.page o) in
    (ConversationManager.getAllQuery o).1
    = ConversationManager.selectFrom
      ++ match fs with
         | [] => ""
         | _ :: _ => " WHERE " ++ String.concat " AND " (Invariant.numbered fs)
         end
      ++ " ORDER BY c.started_at DESC LIMIT $" ++ pretty (1 + n)
      ++ " OFFSET $" ++ pretty (1 + n + 1)
    /\ (ConversationManager.getAllQuery o).2
       = (List.map (fun cv : string * string => ConversationManager.PString cv.2) fs
          ++ [ConversationManager.PNumber (JS.Finite limit);
              ConversationManager.PNumber (JS.mul (JS.toDouble (page - 1)) limit)])%list
    /\ (forall (k : nat) (cv : string * string),
          fs !! k = Some cv ->
          Invariant.numbered fs !! k = Some (cv.1 ++ pretty (Z.of_nat (S k)))
          /\ (ConversationManager.getAllQuery o).2 !! k
             = Some (ConversationManager.PString cv.2)
          /\ cv.2 <> "")
    /\ (Z.abs (page - 1) < 2 ^ 53 ->
        Z.abs ((page - 1) * limit) < 2 ^ 53 ->
        JS.mul (JS.toDouble (page - 1)) limit = JS.Finite ((page - 1) * limit)).
Proof.
  intros o. cbv zeta.
  assert (Hparams :
    (ConversationManager.getAllQuery o).2
    = (List.map (fun cv : string * string => ConversationManager.PString cv.2)
         (Invariant.givenFilters o)
       ++ [ConversationManager.PNumber (JS.Finite (default 20 (ConversationManager.limit o)));
           ConversationManager.PNumber
             (JS.mul (JS.toDouble (default 1 (ConversationManager.page o) - 1))
                (default 20 (ConversationManager.limit o)))])%list).
  { unfold ConversationManager.getAllQuery. now rewrite filters_built. }
  split; [|split; [exact Hparams|split]].
  - unfold ConversationManager.getAllQuery. rewrite filters_built.
    unfold Invariant.built. cbn [fst snd].
    unfold Invariant.numbered. rewrite length_imap.
    now destruct (Invariant.givenFilters o).
  - intros k cv Hk. split; [|split].
    + unfold Invariant.numbered. now rewrite list_lookup_imap, Hk.
    + rewrite Hparams. rewrite lookup_app_l.
      * now rewrite list_lookup_fmap, Hk.
      * rewrite length_map. now apply lookup_lt_Some in Hk.
    + apply (givenFilters_nonempty o). apply list_elem_of_In.
      now apply list_elem_of_lookup_2 in Hk.
  - intros Hp Hprod. rewrite toDouble_exact by exact Hp. cbn [JS.mul].
    now apply toDouble_exact.
Qed.

(** Page 3 of the ended conversations, ten a page; and a page number past
    [2^53], where the offset is no longer [(page - 1) * limit]. *)
Lemma getAll_placeholders_match_parameters_witness :
  (ConversationManager.getAllQuery
     {| ConversationManager.page := Some 3; ConversationManager.limit := Some 10;
        ConversationManager.o_userId := None;
        ConversationManager.o_status := Some "ended";
        ConversationManager.startDate := Some "";
        ConversationManager.endDate := None |}).2
  = [ConversationManager.PString "ended";
     ConversationManager.PNumber (JS.Finite 10);
     ConversationManager.PNumber (JS.Finite 20)]
  /\ (ConversationManager.getAllQuery
        {| ConversationManager.page := Some (2 ^ 53 + 2);
           ConversationManager.limit := Some 1;
           ConversationManager.o_userId := None; ConversationManager.o_status := None;
           ConversationManager.startDate := None;
           ConversationManager.endDate := None |}).2
     = [ConversationManager.PNumber (JS.Finite 1);
        ConversationManager.PNumber (JS.Finite (2 ^ 53))].
Proof.
  split.
  - destruct (getAll_placeholders_match_parameters
                {| ConversationManager.page := Some 3; ConversationManager.limit := Some 10;
                   ConversationManager.o_userId := None;
                   ConversationManager.o_status := Some "ended";
                   ConversationManager.startDate := Some "";
                   ConversationManager.endDate := None |}) as (_ & Hparams & _).
    rewrite Hparams. reflexivity.
  - destruct (getAll_placeholders_match_parameters
                {| ConversationManager.page := Some (2 ^ 53 + 2);
                   ConversationManager.limit := Some 1;
                   ConversationManager.o_userId := None;
                   ConversationManager.o_status := None;
                   ConversationManager.startDate := None;
                   ConversationManager.endDate := None |}) as (_ & Hparams & _).
    rewrite Hparams. vm_compute. reflexivity.
Defined.
